(** * Ech1d: a shallow embedding of [specim/specfuncs/echelle1d.py]

    The module wraps a Python [list] of [Spec1d] order spectra and offers
    three operations: the constructor [Ech1d.__init__], the plot driver
    [Ech1d.plot_all] and the exporter [Ech1d.save_multi].  All three are
    embedded as computations in a small state-and-exception monad whose
    state holds the collection under construction ([self]), the
    filesystem and the trace of calls made to the outside world (printed
    lines, FITS opens, collaborator plot calls, the final [plt.xlim]). *)

From Stdlib Require Import ZArith QArith Qminmax List Lia.
From stdpp Require Import base strings gmap.
Import ListNotations.

Local Open Scope string_scope.
Local Open Scope list_scope.

(** ** Python values that the module touches *)

(** Wavelength, flux, redshift and smoothing-width values.  The module
    only compares them ([<], [>]) and selects minima and maxima, which is
    exact on finite binary64 numbers; they are embedded as rationals.
    NaN and infinities are outside the model. *)
Definition pyfloat : Type := Q.

(** [1.e12], the starting value of [wmin] in [plot_all]. *)
Definition wmin_start : pyfloat := 1000000000000 # 1.

(** [0.], the starting value of [wmax] in [plot_all]. *)
Definition wmax_start : pyfloat := 0 # 1.

(** The boolean results of Python's [<] and [>] on floats. *)
Definition float_lt (x y : pyfloat) : bool :=
  match Qcompare x y with Lt => true | _ => false end.

Definition float_gt (x y : pyfloat) : bool :=
  match Qcompare x y with Gt => true | _ => false end.

(** Modelled from the spec: the class [Spec1d] lives in
    [specim/specfuncs/spec1d.py], which is not part of the sources at
    hand.  The data model describes an order spectrum as wavelength and
    flux columns with optional variance and sky columns. *)
Record Spec1d : Type := mkSpec1d {
  wav  : list pyfloat;
  flux : list pyfloat;
  var  : option (list pyfloat);
  sky  : option (list pyfloat)
}.

(** [len(spec)]: the number of rows of the spectrum's table. *)
Definition len_spec (spec : Spec1d) : nat := length (wav spec).

(** An element of the [speclist] argument: either a [Spec1d] instance or
    some other Python object, of which only a description is kept. *)
Inductive pyobj : Type :=
| PySpec1d (spec : Spec1d)
| PyOther (repr : string).

(** [isinstance(obj, ss.Spec1d)]. *)
Definition isinstance_Spec1d (o : pyobj) : bool :=
  match o with
  | PySpec1d _ => true
  | PyOther _ => false
  end.

(** The [title] variable of [plot_all]: [None], [False] or a string. *)
Inductive title_val : Type :=
| TitleNone
| TitleFalse
| TitleStr (s : string).

(** ** Exceptions *)

(** The exception classes that occur.  [IOError] is the Python 3 alias of
    [OSError]. *)
Inductive exc_class : Type :=
| TypeError
| ValueError
| KeyError
| IndexError
| NameError
| UnboundLocalError
| OSError
| FileNotFoundError.

Definition IOError : exc_class := OSError.

(** An exception instance: its class, its arguments and the exception
    that was being handled when it was raised ([__context__]). *)
#[warnings="-register-all"]
Inductive exc : Type :=
| Exc (cls : exc_class) (args : list string) (context : option exc).

Definition exc_cls (e : exc) : exc_class :=
  match e with Exc c _ _ => c end.

Definition exc_args (e : exc) : list string :=
  match e with Exc _ a _ => a end.

Definition exc_context (e : exc) : option exc :=
  match e with Exc _ _ c => c end.

Definition exc_class_eqb (a b : exc_class) : bool :=
  match a, b with
  | TypeError, TypeError | ValueError, ValueError | KeyError, KeyError
  | IndexError, IndexError | NameError, NameError | UnboundLocalError, UnboundLocalError
  | OSError, OSError | FileNotFoundError, FileNotFoundError => true
  | _, _ => false
  end.

(** [issubclass(c, parent)] on the classes above. *)
Definition issubclass (c parent : exc_class) : bool :=
  exc_class_eqb c parent ||
  match c, parent with
  | UnboundLocalError, NameError => true
  | FileNotFoundError, OSError => true
  | _, _ => false
  end.

(** Does an [except parent:] clause catch [e]? *)
Definition catches (parent : exc_class) (e : exc) : bool :=
  issubclass (exc_cls e) parent.

(** Raising [e] while [ctx] is being handled records [ctx] as the
    context of [e]. *)
Definition raised_during (ctx : exc) (e : exc) : exc :=
  match e with Exc c a _ => Exc c a (Some ctx) end.

(** ** FITS files and the filesystem *)

(** An astropy [Table]: named columns, in order. *)
Definition Table : Type := list (string * list pyfloat).

(** One record (HDU) of a FITS file. *)
Inductive HDU : Type :=
| PrimaryHDU
| BinTableHDU (cols : Table).

Inductive file : Type :=
| FitsFile (hdus : list HDU)
| RawFile (content : string).

Abbreviation filesystem := (gmap string file).

(** ** The outside world *)

Definition kwargs : Type := list (string * string).

Inductive event : Type :=
| Print (line : string)
| FitsOpen (path : string)
| FitsWrite (path : string)
| SpecSmooth (spec : Spec1d) (smo : pyfloat) (mode : string)
             (title : title_val) (verbose : bool) (kw : kwargs)
| SpecPlot (spec : Spec1d) (mode : string) (title : title_val) (kw : kwargs)
| MarkLines (spec : Spec1d) (lines : string) (z : pyfloat)
            (showz usesmooth : bool)
| Xlim (lo hi : pyfloat).

(** The collection itself: [Ech1d] subclasses [list]. *)
Definition Ech1d : Type := list Spec1d.

Record state : Type := mkState {
  self  : Ech1d;
  fs    : filesystem;
  trace : list event
}.

(** ** The monad *)

Inductive result (A : Type) : Type :=
| Returned (a : A)
| Raised (e : exc).
Arguments Returned {A} a.
Arguments Raised {A} e.

Definition Py (A : Type) : Type := state -> state * result A.

Definition ret {A} (a : A) : Py A := fun st => (st, Returned a).

Definition bind {A B} (m : Py A) (k : A -> Py B) : Py B :=
  fun st =>
    match m st with
    | (st', Returned a) => k a st'
    | (st', Raised e) => (st', Raised e)
    end.

Definition raise {A} (e : exc) : Py A := fun st => (st, Raised e).

(** Code that runs while [ctx] is being handled: what it raises carries
    [ctx] as its context. *)
Definition handling {A} (ctx : exc) (m : Py A) : Py A :=
  fun st =>
    match m st with
    | (st', Returned a) => (st', Returned a)
    | (st', Raised e) => (st', Raised (raised_during ctx e))
    end.

(** [try: body  except cls: handler]. *)
Definition try_except {A} (body : Py A) (cls : exc_class)
    (handler : Py A) : Py A :=
  fun st =>
    match body st with
    | (st', Returned a) => (st', Returned a)
    | (st', Raised e) =>
        if catches cls e then handling e handler st' else (st', Raised e)
    end.

Declare Scope py_scope.
Delimit Scope py_scope with py.
Notation "x <- m ;; k" := (bind m (fun x => k))
  (at level 100, m at next level, right associativity) : py_scope.
Notation "m ;; k" := (bind m (fun _ => k))
  (at level 100, right associativity) : py_scope.
Local Open Scope py_scope.

Definition emit (e : event) : Py unit :=
  fun st => (mkState (self st) (fs st) (trace st ++ [e]), Returned tt).

(** [print(line)]. *)
Definition print (line : string) : Py unit := emit (Print line).

(** [self.append(spec)]. *)
Definition append (spec : Spec1d) : Py unit :=
  fun st => (mkState (self st ++ [spec]) (fs st) (trace st), Returned tt).

Definition get_self : Py Ech1d := fun st => (st, Returned (self st)).

(** A call that touches nothing of the state. *)
Definition pure_call {A} (r : result A) : Py A := fun st => (st, r).

(** ** Collaborators: astropy and [Spec1d] *)

(** [pf.open(path)]: a missing file raises [FileNotFoundError], a file
    that is not FITS raises [OSError]; both are [IOError]s. *)
Definition pf_open (path : string) : Py (list HDU) :=
  emit (FitsOpen path) ;;
  fun st =>
    match fs st !! path with
    | Some (FitsFile hdus) => (st, Returned hdus)
    | Some (RawFile _) =>
        (st, Raised (Exc OSError
               ["No SIMPLE card found, this file does not appear to be a valid FITS file"]
               None))
    | None =>
        (st, Raised (Exc FileNotFoundError
               ["2"; "No such file or directory"; path] None))
    end.

(** [hdulist.writeto(path, overwrite=...)]: refuses an existing path
    unless [overwrite] is set, and otherwise replaces the file. *)
Definition writeto (hdulist : list HDU) (path : string) (overwrite : bool)
    : Py unit :=
  fun st =>
    match fs st !! path, overwrite with
    | Some _, false =>
        (st, Raised (Exc OSError ["File " +:+ path +:+ " already exists."] None))
    | _, _ =>
        (mkState (self st) (<[path := FitsFile hdulist]> (fs st))
                 (trace st ++ [FitsWrite path]),
         Returned tt)
    end.

Definition lookup_col (name : string) (t : Table) : option (list pyfloat) :=
  match find (fun c => String.eqb (fst c) name) t with
  | Some c => Some (snd c)
  | None => None
  end.

(** Modelled from the spec: [Table(spec)], the conversion of an order
    spectrum to a table "with columns for at least wavelength and flux,
    plus variance/sky when present" ([Spec1d] is not in the sources). *)
Definition Table_of (spec : Spec1d) : Table :=
  [("wav", wav spec); ("flux", flux spec)]
  ++ match var spec with Some c => [("var", c)] | None => [] end
  ++ match sky spec with Some c => [("sky", c)] | None => [] end.

(** Modelled from the spec: [Spec1d(hdu=h)], which reads one order back
    from a table record; a record without wavelength and flux columns is
    rejected ([Spec1d] is not in the sources). *)
Definition Spec1d_of_hdu (h : HDU) : result Spec1d :=
  match h with
  | BinTableHDU cols =>
      match lookup_col "wav" cols, lookup_col "flux" cols with
      | Some w, Some f =>
          Returned (mkSpec1d w f (lookup_col "var" cols) (lookup_col "sky" cols))
      | None, _ => Raised (Exc KeyError ["wav"] None)
      | _, None => Raised (Exc KeyError ["flux"] None)
      end
  | PrimaryHDU => Raised (Exc TypeError ["no table data"] None)
  end.

(** [x.min()] and [x.max()] of a column; numpy raises [ValueError] on an
    empty one. *)
Definition col_min (c : list pyfloat) : option pyfloat :=
  match c with
  | [] => None
  | x :: xs => Some (fold_left (fun m y => if float_lt y m then y else m) xs x)
  end.

Definition col_max (c : list pyfloat) : option pyfloat :=
  match c with
  | [] => None
  | x :: xs => Some (fold_left (fun m y => if float_gt y m then y else m) xs x)
  end.

Definition zero_size (what : string) : exc :=
  Exc ValueError
    ["zero-size array to reduction operation " +:+ what +:+ " which has no identity"]
    None.

Definition wav_min (spec : Spec1d) : Py pyfloat :=
  match col_min (wav spec) with
  | Some m => ret m
  | None => raise (zero_size "minimum")
  end.

Definition wav_max (spec : Spec1d) : Py pyfloat :=
  match col_max (wav spec) with
  | Some m => ret m
  | None => raise (zero_size "maximum")
  end.

Section Ech1d.

(** What a table cell reads back as after it was written to a FITS
    table: the precision loss of tabular serialization. *)
Variable stored : pyfloat -> pyfloat.

(** The collaborator's [spec.mark_lines(lines, z, ...)]: [None] when the
    call completes, [Some e] when it raises [e]. *)
Variable mark_lines_raises : Spec1d -> string -> option exc.

(** [pf.table_to_hdu(t)]. *)
Definition table_to_hdu (t : Table) : HDU :=
  BinTableHDU (map (fun c => (fst c, map stored (snd c))) t).

(** ** [Ech1d.__init__] *)

(** The loop over [speclist]. *)
Fixpoint init_speclist (speclist : list pyobj) : Py unit :=
  match speclist with
  | [] => ret tt
  | spec :: rest =>
      match spec with
      | PyOther _ =>            (* isinstance(spec, ss.Spec1d) is not True *)
          print "" ;;
          print "With speclist option the list must contain Spec1d instances" ;;
          print "" ;;
          raise (Exc TypeError [] None)
      | PySpec1d spec =>
          append spec ;;
          init_speclist rest
      end
  end.

(** The loop [for i in range(1, len(hdu))]. *)
Fixpoint init_hdus (hdu : list HDU) (range : list nat) : Py unit :=
  match range with
  | [] => ret tt
  | i :: rest =>
      match hdu !! i with
      | Some h =>
          spec <- pure_call (Spec1d_of_hdu h) ;;
          append spec ;;
          init_hdus hdu rest
      | None => raise (Exc IndexError ["list index out of range"] None)
      end
  end.

(** [range(1, n)]. *)
Definition range1 (n : nat) : list nat := seq 1 (n - 1).

Definition init (speclist : option (list pyobj)) (echfile : option string)
    (filelist : option (list string)) (informat : option string)
    (verbose : bool) : Py unit :=
  match speclist with
  | Some speclist => init_speclist speclist
  | None =>
      match echfile with
      | Some echfile =>
          (if verbose
           then print ("Opening echelle spectrum file: " +:+ echfile)
           else ret tt) ;;
          hdu <- try_except (pf_open echfile) IOError
                   (raise (Exc IOError [] None)) ;;
          let norder := (Z.of_nat (length hdu) - 1)%Z in
          init_hdus hdu (range1 (length hdu))
      | None =>
          print "" ;;
          print "NOTE: filelist option is not implemented for input" ;;
          print ""
      end
  end.

(** The call [Ech1d(speclist, echfile, filelist, informat, verbose)]: a
    fresh empty list is created, [__init__] runs on it, and the caller
    receives the object only if [__init__] returns; when it raises, the
    caller gets the exception and no reference to the object.  The result
    is paired with the lines printed and files opened on the way. *)
Definition Ech1d_new (speclist : option (list pyobj)) (echfile : option string)
    (filelist : option (list string)) (informat : option string)
    (verbose : bool) (fs0 : filesystem) : list event * result Ech1d :=
  match init speclist echfile filelist informat verbose (mkState [] fs0 []) with
  | (st, Returned _) => (trace st, Returned (self st))
  | (st, Raised e) => (trace st, Raised e)
  end.

(** ** [Ech1d.plot_all] *)

(** The variables that the loop of [plot_all] carries from one order to
    the next. *)
Record loop_vars : Type := mkVars {
  i     : nat;
  wmin  : pyfloat;
  wmax  : pyfloat;
  title : title_val;
  showz : bool
}.

(** "Set plot labeling": the test [count == len(spec) - 1] and the two
    assignments of either branch. *)
Definition set_labels (count : nat) (spec : Spec1d) (title : title_val)
    : title_val * bool :=
  if (Z.of_nat count =? Z.of_nat (len_spec spec) - 1)%Z then
    (match title with
     | TitleNone => TitleStr "Extracted Spectrum"
     | _ => title
     end, true)
  else (TitleFalse, false).

(** [spec.mark_lines(lines, z, showz=showz, usesmooth=usesmooth)]. *)
Definition mark_lines (spec : Spec1d) (lines : string) (z : pyfloat)
    (showz usesmooth : bool) : Py unit :=
  emit (MarkLines spec lines z showz usesmooth) ;;
  match mark_lines_raises spec lines with
  | Some e => raise e
  | None => ret tt
  end.

(** One turn of the loop.  [spec.smooth] and [spec.plot] are recorded as
    calls; only [mark_lines], for which the source has a handler, and the
    column reductions can raise. *)
Definition plot_body (mode : string) (z : option pyfloat) (linetype : string)
    (smo : option pyfloat) (verbose : bool) (kw : kwargs)
    (count : nat) (spec : Spec1d) (v : loop_vars) : Py loop_vars :=
  let '(title, showz) := set_labels count spec (title v) in
  match smo with
  | Some smo => emit (SpecSmooth spec smo mode title verbose kw)
  | None => emit (SpecPlot spec mode title kw)
  end ;;
  match z with
  | Some z =>
      let usesmooth := match smo with Some _ => true | None => false end in
      try_except (mark_lines spec linetype z showz usesmooth) NameError
        (mark_lines spec "strongem" z showz usesmooth)
  | None => ret tt
  end ;;
  lo <- wav_min spec ;;
  wmin <- (if float_lt lo (wmin v) then wav_min spec else ret (wmin v)) ;;
  hi <- wav_max spec ;;
  wmax <- (if float_gt hi (wmax v) then wav_max spec else ret (wmax v)) ;;
  ret (mkVars (i v + 1) wmin wmax title showz).

(** [for count, spec in enumerate(self)], from index [count] on. *)
Fixpoint plot_loop (mode : string) (z : option pyfloat) (linetype : string)
    (smo : option pyfloat) (verbose : bool) (kw : kwargs)
    (count : nat) (orders : list Spec1d) (v : loop_vars) : Py loop_vars :=
  match orders with
  | [] => ret v
  | spec :: rest =>
      v' <- plot_body mode z linetype smo verbose kw count spec v ;;
      plot_loop mode z linetype smo verbose kw (S count) rest v'
  end.

Definition plot_all (plotmode mode : string) (title : title_val)
    (z : option pyfloat) (showz : bool) (linetype : string)
    (smo : option pyfloat) (verbose : bool) (kw : kwargs) : Py unit :=
  let v0 := mkVars 0 wmin_start wmax_start title showz in
  orders <- get_self ;;
  v <- plot_loop mode z linetype smo verbose kw 0 orders v0 ;;
  emit (Xlim (wmin v) (wmax v)).

(** ** [Ech1d.save_multi] *)

Definition save_multi (outroot outformat : string) : Py unit :=
  if String.eqb outformat "multitab" then
    let phdu := PrimaryHDU in
    let hdulist := [phdu] in
    orders <- get_self ;;
    let lll := map (fun spec => table_to_hdu (Table_of spec)) orders in
    let hdulist := [phdu] ++ lll in
    let outfile := outroot +:+ ".fits" in
    writeto hdulist outfile true
  else
    print "" ;;
    print "Not yet implemented yet" ;;
    print "".

End Ech1d.

(** ** Vocabulary of the statements *)

(** The [Spec1d] instances at the head of a [speclist], up to its first
    element of another type. *)
Fixpoint conforming_prefix (speclist : list pyobj) : list Spec1d :=
  match speclist with
  | PySpec1d spec :: rest => spec :: conforming_prefix rest
  | _ => []
  end.

(** The three lines printed before [TypeError] is raised. *)
Definition mismatch_notice : list event :=
  [Print "";
   Print "With speclist option the list must contain Spec1d instances";
   Print ""].

(** The three lines printed when neither a list nor a file is given. *)
Definition filelist_notice : list event :=
  [Print "";
   Print "NOTE: filelist option is not implemented for input";
   Print ""].

(** What the file branch of the constructor prints and opens before it
    reads any record. *)
Definition opening (verbose : bool) (echfile : string) : list event :=
  (if verbose then [Print ("Opening echelle spectrum file: " +:+ echfile)]
   else [])
  ++ [FitsOpen echfile].

Definition is_open_event (e : event) : bool :=
  match e with FitsOpen _ => true | _ => false end.

(** The three lines printed for an output format other than 'multitab'. *)
Definition not_implemented_notice : list event :=
  [Print ""; Print "Not yet implemented yet"; Print ""].

(** An order spectrum as it reads back from a table whose cells went
    through [stored]. *)
Definition as_stored (stored : pyfloat -> pyfloat) (spec : Spec1d) : Spec1d :=
  mkSpec1d (map stored (wav spec)) (map stored (flux spec))
           (option_map (map stored) (var spec))
           (option_map (map stored) (sky spec)).

(** A table record that holds a wavelength and a flux column. *)
Definition has_wav_and_flux (h : HDU) : bool :=
  match h with
  | BinTableHDU cols =>
      match lookup_col "wav" cols, lookup_col "flux" cols with
      | Some _, Some _ => true
      | _, _ => false
      end
  | PrimaryHDU => false
  end.

(** The call that draws one order: [spec.smooth(...)] when a smoothing
    width is given, [spec.plot(...)] otherwise. *)
Definition plot_call (smo : option pyfloat) (spec : Spec1d) (mode : string)
    (title : title_val) (verbose : bool) (kw : kwargs) : event :=
  match smo with
  | Some smo => SpecSmooth spec smo mode title verbose kw
  | None => SpecPlot spec mode title kw
  end.

(** The value of [usesmooth] in [plot_all]. *)
Definition usesmooth_of (smo : option pyfloat) : bool :=
  match smo with Some _ => true | None => false end.

(** What the marking step of one turn amounts to: the [mark_lines] calls
    it makes and the exception it lets through, if any; [plot_body_eq]
    below derives it from [plot_body]. *)
Definition marking_outcome (mark_lines_raises : Spec1d -> string -> option exc)
    (z : option pyfloat) (linetype : string)
    (smo : option pyfloat) (spec : Spec1d) (showz : bool)
    : list event * option exc :=
  match z with
  | None => ([], None)
  | Some zv =>
      let first := MarkLines spec linetype zv showz (usesmooth_of smo) in
      let again := MarkLines spec "strongem" zv showz (usesmooth_of smo) in
      match mark_lines_raises spec linetype with
      | None => ([first], None)
      | Some e =>
          if catches NameError e
          then ([first; again],
                match mark_lines_raises spec "strongem" with
                | None => None
                | Some e2 => Some (raised_during e e2)
                end)
          else ([first], Some e)
      end
  end.

(** The marking step of a turn lets no exception through. *)
Definition marks_complete (mark_lines_raises : Spec1d -> string -> option exc)
    (z : option pyfloat) (linetype : string) (spec : Spec1d) : bool :=
  match z with
  | None => true
  | Some _ =>
      match mark_lines_raises spec linetype with
      | None => true
      | Some e =>
          catches NameError e &&
          match mark_lines_raises spec "strongem" with
          | None => true
          | Some _ => false
          end
      end
  end.

(** A turn of the loop runs to its end: marking lets nothing through and
    the wavelength column is not empty. *)
Definition turn_completes (mark_lines_raises : Spec1d -> string -> option exc)
    (z : option pyfloat) (linetype : string) (spec : Spec1d) : bool :=
  marks_complete mark_lines_raises z linetype spec &&
  match wav spec with [] => false | _ :: _ => true end.

(** The title that the test [count == len(spec) - 1] leaves when it
    succeeds: 'Extracted Spectrum' in place of [None], anything else
    unchanged. *)
Definition default_title (title : title_val) : title_val :=
  match title with
  | TitleNone => TitleStr "Extracted Spectrum"
  | _ => title
  end.

(** The test of [plot_all] on the loop index and the order's own length. *)
Definition count_is_len_minus_1 (count : nat) (spec : Spec1d) : bool :=
  (Z.of_nat count =? Z.of_nat (len_spec spec) - 1)%Z.

(** Every order of [orders], numbered from [count] on, passes the test. *)
Fixpoint all_pass (count : nat) (orders : list Spec1d) : bool :=
  match orders with
  | [] => true
  | spec :: rest => count_is_len_minus_1 count spec && all_pass (S count) rest
  end.

(** Every wavelength value of a collection. *)
Definition all_wavs (orders : list Spec1d) : list pyfloat :=
  concat (map wav orders).

(** [m] is the least, resp. greatest, value that occurs in [l]. *)
Definition is_least (m : pyfloat) (l : list pyfloat) : Prop :=
  (exists w, In w l /\ (w == m)%Q) /\ (forall w, In w l -> (m <= w)%Q).

Definition is_greatest (m : pyfloat) (l : list pyfloat) : Prop :=
  (exists w, In w l /\ (w == m)%Q) /\ (forall w, In w l -> (w <= m)%Q).

(** Example data: two orders that cover 4000-5000 and 5000-6000, an
    order of a single sample, and an order whose values all lie above the
    starting value of [wmin]. *)
Definition order_a : Spec1d :=
  mkSpec1d [4000 # 1; 4500 # 1; 5000 # 1] [1 # 1; 2 # 1; 3 # 1] None None.

Definition order_b : Spec1d :=
  mkSpec1d [5000 # 1; 6000 # 1] [4 # 1; 5 # 1] None None.

Definition one_sample : Spec1d := mkSpec1d [4000 # 1] [1 # 1] None None.

Definition far_order : Spec1d :=
  mkSpec1d [2000000000000 # 1; 3000000000000 # 1] [1 # 1; 1 # 1] None None.

(** Example collaborators: a [mark_lines] that always completes, one that
    raises [NameError] for every line type but 'strongem', and one that
    raises [KeyError] instead. *)
Definition never_raises : Spec1d -> string -> option exc :=
  fun _ _ => None.

Definition knows_only_strongem : Spec1d -> string -> option exc :=
  fun _ lines =>
    if String.eqb lines "strongem" then None
    else Some (Exc NameError ["name 'pm' is not defined"] None).

Definition raises_KeyError : Spec1d -> string -> option exc :=
  fun _ lines =>
    if String.eqb lines "strongem" then None
    else Some (Exc KeyError [lines] None).

(** A two-order file used in the examples below. *)
Definition two_order_file : list HDU :=
  [PrimaryHDU;
   BinTableHDU [("wav", [4000 # 1; 5000 # 1]); ("flux", [1 # 1; 2 # 1])];
   BinTableHDU [("wav", [5000 # 1; 6000 # 1]); ("flux", [3 # 1; 4 # 1]);
                ("sky", [1 # 2; 1 # 2])]].

(** Vocabulary for reading a trace: the final [plt.xlim] call, the
    [mark_lines] calls, the orders drawn, the titles and the kind of
    drawing call. *)
Definition is_xlim (e : event) : bool :=
  match e with Xlim _ _ => true | _ => false end.

Definition is_mark_lines (e : event) : bool :=
  match e with MarkLines _ _ _ _ _ => true | _ => false end.

Definition drawn_order (e : event) : option Spec1d :=
  match e with
  | SpecPlot spec _ _ _ => Some spec
  | SpecSmooth spec _ _ _ _ _ => Some spec
  | _ => None
  end.

(** The orders drawn by [spec.plot] or [spec.smooth], in trace order. *)
Fixpoint drawn (tr : list event) : list Spec1d :=
  match tr with
  | [] => []
  | e :: rest =>
      match drawn_order e with
      | Some spec => spec :: drawn rest
      | None => drawn rest
      end
  end.

(** A drawing call, if it is one, carries the title [False]. *)
Definition without_title (e : event) : bool :=
  match e with
  | SpecPlot _ _ TitleFalse _ => true
  | SpecPlot _ _ _ _ => false
  | SpecSmooth _ _ _ TitleFalse _ _ => true
  | SpecSmooth _ _ _ _ _ _ => false
  | _ => true
  end.

(** Neither [spec.plot] nor a [mark_lines] call on the raw trace. *)
Definition smoothed_call (e : event) : bool :=
  match e with
  | SpecPlot _ _ _ _ => false
  | MarkLines _ _ _ _ usesmooth => usesmooth
  | _ => true
  end.

(** Neither [spec.smooth] nor a [mark_lines] call on the smoothed
    trace. *)
Definition raw_call (e : event) : bool :=
  match e with
  | SpecSmooth _ _ _ _ _ _ => false
  | MarkLines _ _ _ _ usesmooth => negb usesmooth
  | _ => true
  end.

(** The exceptions of [pf.open], as [pf_open] raises them. *)
Definition not_fits_error : exc :=
  Exc OSError
    ["No SIMPLE card found, this file does not appear to be a valid FITS file"]
    None.

Definition missing_file_error (path : string) : exc :=
  Exc FileNotFoundError ["2"; "No such file or directory"; path] None.

(** The title of an order as it would be if it depended on the title the
    caller gave and on that order's test alone. *)
Definition title_from_the_title_given (title0 : title_val) (count : nat)
    (spec : Spec1d) : title_val :=
  if count_is_len_minus_1 count spec then default_title title0
  else TitleFalse.

(** * Properties of the constructor *)

Section Construction.

Lemma init_speclist_run (speclist : list pyobj) (st : state) :
  init_speclist speclist st =
  if forallb isinstance_Spec1d speclist
  then (mkState (self st ++ conforming_prefix speclist) (fs st) (trace st),
        Returned tt)
  else (mkState (self st ++ conforming_prefix speclist) (fs st)
                (trace st ++ mismatch_notice),
        Raised (Exc TypeError [] None)).
Proof.
  revert st. induction speclist as [|o rest IH]; intros [c f t].
  - cbn. rewrite app_nil_r. reflexivity.
  - destruct o as [spec|repr].
    + cbn [init_speclist forallb isinstance_Spec1d andb conforming_prefix].
      unfold bind at 1. cbn [append self fs trace].
      rewrite IH. cbn [self fs trace].
      rewrite <- app_assoc. reflexivity.
    + cbn. rewrite app_nil_r, <- !app_assoc. reflexivity.
Qed.

Lemma conforming_prefix_all (orders : list Spec1d) :
  conforming_prefix (map PySpec1d orders) = orders.
Proof. induction orders as [|s l IH]; cbn; [|rewrite IH]; reflexivity. Qed.

Lemma forallb_all_conforming (orders : list Spec1d) :
  forallb isinstance_Spec1d (map PySpec1d orders) = true.
Proof. induction orders as [|s l IH]; cbn; auto. Qed.

Lemma forallb_some_other (speclist : list pyobj) :
  (exists o, In o speclist /\ isinstance_Spec1d o = false) ->
  forallb isinstance_Spec1d speclist = false.
Proof.
  intros (o & Hin & Ho).
  destruct (forallb isinstance_Spec1d speclist) eqn:E; [|reflexivity].
  rewrite forallb_forall in E. rewrite (E o Hin) in Ho. discriminate.
Qed.

(** The records that follow the prefix [before] of an opened file are
    read in file order and appended one by one. *)
Lemma init_hdus_run (records : list HDU) :
  forall (before : list HDU) (orders : list Spec1d) (st : state),
    Forall2 (fun h spec => Spec1d_of_hdu h = Returned spec) records orders ->
    init_hdus (before ++ records) (seq (length before) (length records)) st =
    (mkState (self st ++ orders) (fs st) (trace st), Returned tt).
Proof.
  induction records as [|h tl IH]; intros before orders [c f t] Hread.
  - inversion Hread; subst. cbn. rewrite app_nil_r. reflexivity.
  - inversion Hread as [|? spec ? rest Hh Hrest]; subst.
    cbn [length seq init_hdus].
    rewrite list_lookup_middle by reflexivity.
    unfold bind at 1, pure_call. rewrite Hh.
    unfold bind at 1. cbn [append self fs trace].
    replace (before ++ h :: tl) with ((before ++ [h]) ++ tl)
      by (rewrite <- app_assoc; reflexivity).
    replace (S (length before)) with (length (before ++ [h]))
      by (rewrite length_app; cbn; lia).
    rewrite (IH (before ++ [h]) rest _ Hrest).
    cbn [self fs trace]. rewrite <- app_assoc. reflexivity.
Qed.

(** Opening a readable FITS file. *)
Lemma pf_open_fits (echfile : string) (hdus : list HDU) (st : state) :
  fs st !! echfile = Some (FitsFile hdus) ->
  pf_open echfile st =
  (mkState (self st) (fs st) (trace st ++ [FitsOpen echfile]), Returned hdus).
Proof.
  intros Hfile. unfold pf_open, bind, emit. cbn [fs]. rewrite Hfile. reflexivity.
Qed.

(** Opening anything else raises an [IOError]. *)
Lemma pf_open_fails (echfile : string) (st : state) :
  (forall hdus, fs st !! echfile <> Some (FitsFile hdus)) ->
  exists e,
    pf_open echfile st =
    (mkState (self st) (fs st) (trace st ++ [FitsOpen echfile]), Raised e)
    /\ catches IOError e = true
    /\ exc_context e = None
    /\ exc_args e <> [].
Proof.
  intros Hno. unfold pf_open, bind, emit. cbn [fs].
  destruct (fs st !! echfile) as [[hdus|content]|] eqn:E.
  - destruct (Hno hdus); reflexivity.
  - eexists; repeat split; discriminate.
  - eexists; repeat split; discriminate.
Qed.

(** The file branch of the constructor on a file whose records after the
    first are all readable. *)
Lemma Ech1d_new_file (echfile : string) (primary : HDU) (records : list HDU)
    (orders : list Spec1d) (filelist : option (list string))
    (informat : option string) (verbose : bool) (fs0 : filesystem) :
  fs0 !! echfile = Some (FitsFile (primary :: records)) ->
  Forall2 (fun h spec => Spec1d_of_hdu h = Returned spec) records orders ->
  Ech1d_new None (Some echfile) filelist informat verbose fs0 =
  (opening verbose echfile, Returned orders).
Proof.
  intros Hfile Hread. unfold Ech1d_new, init.
  unfold bind at 1.
  set (st1 := mkState [] fs0 (if verbose
              then [Print ("Opening echelle spectrum file: " +:+ echfile)]
              else [])).
  assert (Hpre : (if verbose
                  then print ("Opening echelle spectrum file: " +:+ echfile)
                  else ret tt) (mkState [] fs0 []) = (st1, Returned tt)).
  { destruct verbose; reflexivity. }
  rewrite Hpre. unfold bind at 1, try_except.
  rewrite (pf_open_fits echfile (primary :: records) st1) by exact Hfile.
  unfold range1. cbn [length]. rewrite Nat.sub_succ, Nat.sub_0_r.
  rewrite (init_hdus_run records [primary] orders _ Hread).
  subst st1. destruct verbose; reflexivity.
Qed.

Lemma readable_records (records : list HDU) :
  (forall h, In h records -> exists spec, Spec1d_of_hdu h = Returned spec) ->
  exists orders,
    Forall2 (fun h spec => Spec1d_of_hdu h = Returned spec) records orders.
Proof.
  induction records as [|h tl IH]; intros Hall.
  - exists []. constructor.
  - destruct (Hall h) as [spec Hspec]; [left; reflexivity|].
    destruct IH as [rest Hrest]; [intros h' Hin; apply Hall; right; exact Hin|].
    exists (spec :: rest). constructor; assumption.
Qed.

(** A list with an element of another type splits at the first one. *)
Lemma first_mismatch (speclist : list pyobj) :
  forallb isinstance_Spec1d speclist = false ->
  exists before other rest,
    speclist = map PySpec1d before ++ PyOther other :: rest
    /\ conforming_prefix speclist = before.
Proof.
  induction speclist as [|o tl IH]; intros Hbad; [discriminate|].
  destruct o as [spec|repr].
  - destruct (IH Hbad) as (before & other & rest & Hsplit & Hpre).
    exists (spec :: before), other, rest. cbn. rewrite Hsplit at 1.
    rewrite Hpre. split; reflexivity.
  - exists [], repr, tl. split; reflexivity.
Qed.

(** Reading records never prints and never opens a file. *)
Lemma init_hdus_trace (hdu : list HDU) (range : list nat) :
  forall st, trace (fst (init_hdus hdu range st)) = trace st.
Proof.
  induction range as [|i rest IH]; intros st; [reflexivity|].
  cbn [init_hdus]. destruct (hdu !! i) as [h|]; [|reflexivity].
  unfold bind at 1, pure_call.
  destruct (Spec1d_of_hdu h) as [spec|e]; [|reflexivity].
  unfold bind at 1. cbn [append]. rewrite IH. reflexivity.
Qed.

(** C4: a constructor call on a list of [Spec1d] instances returns exactly
    that list, in the same order; a call on a file of N+1 records whose N
    records after the first are readable returns N orders, the k-th of
    which was read from the k-th of these records. *)
Theorem construction_preserves_order_and_length :
  (forall (orders : list Spec1d) (echfile : option string)
          (filelist : option (list string)) (informat : option string)
          (verbose : bool) (fs0 : filesystem),
      Ech1d_new (Some (map PySpec1d orders)) echfile filelist informat
                verbose fs0
      = ([], Returned orders))
  /\
  (forall (echfile : string) (primary : HDU) (records : list HDU)
          (filelist : option (list string)) (informat : option string)
          (verbose : bool) (fs0 : filesystem),
      fs0 !! echfile = Some (FitsFile (primary :: records)) ->
      (forall h, In h records -> exists spec, Spec1d_of_hdu h = Returned spec) ->
      exists orders,
        Ech1d_new None (Some echfile) filelist informat verbose fs0
        = (opening verbose echfile, Returned orders)
        /\ S (length orders) = length (primary :: records)
        /\ Forall2 (fun h spec => Spec1d_of_hdu h = Returned spec)
                   records orders).
Proof.
  split.
  - intros orders echfile filelist informat verbose fs0.
    unfold Ech1d_new, init. rewrite init_speclist_run.
    rewrite forallb_all_conforming, conforming_prefix_all. reflexivity.
  - intros echfile primary records filelist informat verbose fs0 Hfile Hall.
    destruct (readable_records records Hall) as [orders Hread].
    exists orders. split; [|split].
    + apply Ech1d_new_file with (primary := primary) (records := records);
        assumption.
    + cbn [length]. f_equal. symmetry.
      apply (Forall2_length _ _ _ Hread).
    + exact Hread.
Qed.

(** C5: when the list holds an element that is not a [Spec1d] instance, the
    constructor call raises a bare [TypeError] after printing its notice
    and hands no collection to the caller; inside [__init__] the error is
    raised at the first such element, when exactly the instances before it
    have been appended. *)
Theorem type_mismatch_aborts_construction
    (speclist : list pyobj) (echfile : option string)
    (filelist : option (list string)) (informat : option string)
    (verbose : bool) (fs0 : filesystem) :
  (exists o, In o speclist /\ isinstance_Spec1d o = false) ->
  Ech1d_new (Some speclist) echfile filelist informat verbose fs0
  = (mismatch_notice, Raised (Exc TypeError [] None))
  /\
  exists before other rest,
    speclist = map PySpec1d before ++ PyOther other :: rest
    /\ forall st,
        init (Some speclist) echfile filelist informat verbose st
        = (mkState (self st ++ before) (fs st) (trace st ++ mismatch_notice),
           Raised (Exc TypeError [] None)).
Proof.
  intros Hbad. apply forallb_some_other in Hbad. split.
  - unfold Ech1d_new, init. rewrite init_speclist_run, Hbad. reflexivity.
  - destruct (first_mismatch speclist Hbad)
      as (before & other & rest & Hsplit & Hpre).
    exists before, other, rest. split; [exact Hsplit|].
    intros st. unfold init. rewrite init_speclist_run, Hbad, Hpre.
    reflexivity.
Qed.

Lemma type_mismatch_aborts_construction_witness :
  Ech1d_new (Some [PySpec1d (mkSpec1d [4000 # 1] [1 # 1] None None);
                   PyOther "42";
                   PySpec1d (mkSpec1d [5000 # 1] [2 # 1] None None)])
            None None None true ∅
  = (mismatch_notice, Raised (Exc TypeError [] None)).
Proof.
  apply (type_mismatch_aborts_construction
           [PySpec1d (mkSpec1d [4000 # 1] [1 # 1] None None);
            PyOther "42";
            PySpec1d (mkSpec1d [5000 # 1] [2 # 1] None None)]
           None None None true ∅).
  exists (PyOther "42"). split; [right; left; reflexivity|reflexivity].
Defined.

Lemma construction_preserves_order_and_length_witness :
  exists orders,
    Ech1d_new None (Some "ech.fits") None None false
              {["ech.fits" := FitsFile two_order_file]}
    = (opening false "ech.fits", Returned orders)
    /\ S (length orders) = length two_order_file
    /\ Forall2 (fun h spec => Spec1d_of_hdu h = Returned spec)
               (tl two_order_file) orders.
Proof.
  apply (proj2 construction_preserves_order_and_length
               "ech.fits" PrimaryHDU (tl two_order_file) None None false
               {["ech.fits" := FitsFile two_order_file]}).
  - apply lookup_singleton_eq.
  - intros h [<-|[<-|[]]]; eexists; reflexivity.
Defined.

(** C8, as stated, fails: for a missing file, what the constructor raises
    is not the exception that [pf.open] raised. *)
Lemma open_failure_not_propagated_unmodified :
  exists original st',
    pf_open "missing.fits"
      (mkState [] ∅ [Print "Opening echelle spectrum file: missing.fits"])
    = (st', Raised original)
    /\ snd (Ech1d_new None (Some "missing.fits") None None true ∅)
       <> Raised original.
Proof.
  eexists. eexists. split; [reflexivity|].
  vm_compute. discriminate.
Qed.

(** C8, amended: when the file cannot be opened, the constructor call
    raises a newly created [IOError] without arguments, whose context is
    the exception raised by [pf.open]; the file is opened once, and the
    caller receives no collection. *)
Theorem open_failure_raises_bare_IOError
    (echfile : string) (filelist : option (list string))
    (informat : option string) (verbose : bool) (fs0 : filesystem) :
  (forall hdus, fs0 !! echfile <> Some (FitsFile hdus)) ->
  exists original st',
    pf_open echfile
      (mkState [] fs0
         (if verbose
          then [Print ("Opening echelle spectrum file: " +:+ echfile)]
          else []))
    = (st', Raised original)
    /\ original <> Exc IOError [] (Some original)
    /\ Ech1d_new None (Some echfile) filelist informat verbose fs0
       = (opening verbose echfile, Raised (Exc IOError [] (Some original))).
Proof.
  intros Hno.
  set (st1 := mkState [] fs0 (if verbose
              then [Print ("Opening echelle spectrum file: " +:+ echfile)]
              else [])).
  destruct (pf_open_fails echfile st1 Hno) as (e & Hopen & Hcatch & Hctx & _).
  exists e. eexists. split; [exact Hopen|]. split.
  - intros Heq. rewrite Heq in Hctx. discriminate.
  - unfold Ech1d_new, init. unfold bind at 1.
    assert (Hpre : (if verbose
                    then print ("Opening echelle spectrum file: " +:+ echfile)
                    else ret tt) (mkState [] fs0 []) = (st1, Returned tt)).
    { destruct verbose; reflexivity. }
    rewrite Hpre. unfold bind at 1, try_except. rewrite Hopen, Hcatch.
    subst st1. destruct e as [c a ctx]. destruct verbose; reflexivity.
Qed.

Lemma open_failure_raises_bare_IOError_witness :
  exists original st',
    pf_open "missing.fits"
      (mkState [] ∅ [Print "Opening echelle spectrum file: missing.fits"])
    = (st', Raised original)
    /\ original <> Exc IOError [] (Some original)
    /\ Ech1d_new None (Some "missing.fits") None None true ∅
       = (opening true "missing.fits",
          Raised (Exc IOError [] (Some original))).
Proof.
  apply (open_failure_raises_bare_IOError "missing.fits" None None true ∅).
  intros hdus Hlook. rewrite lookup_empty in Hlook. discriminate.
Defined.

(** C10: with a list of [Spec1d] instances given, the call returns
    exactly that list, whatever file path is given with it, and prints and
    opens nothing; with any list given, the call is the same as with the
    list alone and no file is opened; with neither list nor file given,
    the call prints the notice and returns an empty collection, whatever
    the file list; that notice is printed only when both list and file are
    absent, and the file list never changes the outcome. *)
Theorem source_precedence :
  (forall (orders : list Spec1d) (echfile : option string)
          (filelist : option (list string)) (informat : option string)
          (verbose : bool) (fs0 : filesystem),
      Ech1d_new (Some (map PySpec1d orders)) echfile filelist informat
                verbose fs0
      = ([], Returned orders))
  /\
  (forall (speclist : list pyobj) (echfile : option string)
          (filelist : option (list string)) (informat : option string)
          (verbose : bool) (fs0 : filesystem),
      Ech1d_new (Some speclist) echfile filelist informat verbose fs0
      = Ech1d_new (Some speclist) None None None false ∅
      /\ forallb (fun e => negb (is_open_event e))
           (fst (Ech1d_new (Some speclist) echfile filelist informat
                           verbose fs0)) = true)
  /\
  (forall (filelist : option (list string)) (informat : option string)
          (verbose : bool) (fs0 : filesystem),
      Ech1d_new None None filelist informat verbose fs0
      = (filelist_notice, Returned []))
  /\
  (forall (speclist : option (list pyobj)) (echfile : option string)
          (filelist : option (list string)) (informat : option string)
          (verbose : bool) (fs0 : filesystem),
      In (Print "NOTE: filelist option is not implemented for input")
         (fst (Ech1d_new speclist echfile filelist informat verbose fs0)) ->
      speclist = None /\ echfile = None)
  /\
  (forall (speclist : option (list pyobj)) (echfile : option string)
          (filelist filelist' : option (list string))
          (informat : option string) (verbose : bool) (fs0 : filesystem),
      Ech1d_new speclist echfile filelist informat verbose fs0
      = Ech1d_new speclist echfile filelist' informat verbose fs0).
Proof.
  split; [|split; [|split; [|split]]].
  - intros orders echfile filelist informat verbose fs0.
    unfold Ech1d_new, init. rewrite init_speclist_run.
    rewrite forallb_all_conforming, conforming_prefix_all. reflexivity.
  - intros speclist echfile filelist informat verbose fs0.
    unfold Ech1d_new, init. rewrite !init_speclist_run.
    destruct (forallb isinstance_Spec1d speclist); split; reflexivity.
  - reflexivity.
  - intros [speclist|] echfile filelist informat verbose fs0.
    + unfold Ech1d_new, init. rewrite init_speclist_run.
      destruct (forallb isinstance_Spec1d speclist); cbn.
      * intros [].
      * intros [H|[H|[H|[]]]]; discriminate.
    + destruct echfile as [echfile|]; [|split; reflexivity].
      intros Hin. exfalso. revert Hin.
      unfold Ech1d_new, init. unfold bind at 1.
      set (st1 := mkState [] fs0 (if verbose
                  then [Print ("Opening echelle spectrum file: " +:+ echfile)]
                  else [])).
      assert (Hpre : (if verbose
                      then print ("Opening echelle spectrum file: " +:+ echfile)
                      else ret tt) (mkState [] fs0 []) = (st1, Returned tt)).
      { destruct verbose; reflexivity. }
      rewrite Hpre. unfold bind at 1, try_except.
      assert (Hst1 : forall ev, In ev (trace st1 ++ [FitsOpen echfile]) ->
                ev <> Print "NOTE: filelist option is not implemented for input").
      { intros ev Hev. apply in_app_or in Hev.
        destruct Hev as [Hev|[<-|[]]]; [|discriminate].
        subst st1. destruct verbose; cbn in Hev; [|destruct Hev].
        destruct Hev as [<-|[]]. discriminate. }
      destruct (fs0 !! echfile) as [[hdus|content]|] eqn:E.
      * rewrite (pf_open_fits echfile hdus st1) by exact E.
        pose proof (init_hdus_trace hdus (range1 (length hdus))
                      (mkState (self st1) (fs st1)
                               (trace st1 ++ [FitsOpen echfile]))) as Ht.
        destruct (init_hdus hdus (range1 (length hdus)) _) as [st2 [u|e]];
          cbn [fst trace] in Ht |- *; rewrite Ht; intros Hin;
          exact (Hst1 _ Hin eq_refl).
      * destruct (pf_open_fails echfile st1) as (e & Hopen & Hcatch & _).
        { intros hdus. cbn [fs st1]. rewrite E. discriminate. }
        rewrite Hopen, Hcatch. cbn [handling raise fst trace].
        intros Hin. exact (Hst1 _ Hin eq_refl).
      * destruct (pf_open_fails echfile st1) as (e & Hopen & Hcatch & _).
        { intros hdus. cbn [fs st1]. rewrite E. discriminate. }
        rewrite Hopen, Hcatch. cbn [handling raise fst trace].
        intros Hin. exact (Hst1 _ Hin eq_refl).
  - reflexivity.
Qed.

Lemma source_precedence_witness :
  Ech1d_new (Some [PySpec1d order_a; PySpec1d order_b]) (Some "ech.fits")
            (Some ["a.txt"; "b.txt"]) None true
            {["ech.fits" := FitsFile two_order_file]}
  = ([], Returned [order_a; order_b])
  /\ ((None : option (list pyobj)) = None /\ (None : option string) = None).
Proof.
  split.
  - apply (proj1 source_precedence [order_a; order_b] (Some "ech.fits")
                 (Some ["a.txt"; "b.txt"]) None true
                 {["ech.fits" := FitsFile two_order_file]}).
  - apply (proj1 (proj2 (proj2 (proj2 source_precedence)))
                 None None (Some ["a.txt"; "b.txt"]) None true ∅).
    right. left. reflexivity.
Defined.

End Construction.

(** * Properties of the exporter *)

Section Exporter.

Variable stored : pyfloat -> pyfloat.

Lemma table_of_order_has_columns (spec : Spec1d) :
  has_wav_and_flux (table_to_hdu stored (Table_of spec)) = true.
Proof. destruct spec as [w f [v|] [k|]]; reflexivity. Qed.

Lemma read_back_order (spec : Spec1d) :
  Spec1d_of_hdu (table_to_hdu stored (Table_of spec))
  = Returned (as_stored stored spec).
Proof. destruct spec as [w f [v|] [k|]]; reflexivity. Qed.

(** The run of [save_multi] in the combined format. *)
Lemma save_multi_multitab_run (outroot : string) (st : state) :
  save_multi stored outroot "multitab" st =
  (mkState (self st)
     (<[outroot +:+ ".fits" :=
          FitsFile (PrimaryHDU ::
                    map (fun spec => table_to_hdu stored (Table_of spec))
                        (self st))]> (fs st))
     (trace st ++ [FitsWrite (outroot +:+ ".fits")]),
   Returned tt).
Proof.
  unfold save_multi. cbn [String.eqb Ascii.eqb Bool.eqb].
  unfold bind, get_self, writeto. cbn [self fs trace app].
  destruct (fs st !! (outroot +:+ ".fits")); reflexivity.
Qed.

(** C2: in the combined format [save_multi] returns normally and leaves at
    [outroot.fits], whatever was there before, one FITS file of N+1
    records: the primary record, then one table per order in collection
    order, each with a wavelength and a flux column; no other path of the
    filesystem changes and exactly one write takes place. *)
Theorem save_multi_multitab_writes_all_orders
    (outroot : string) (st : state) :
  exists st' tables,
    save_multi stored outroot "multitab" st = (st', Returned tt)
    /\ fs st' !! (outroot +:+ ".fits") = Some (FitsFile (PrimaryHDU :: tables))
    /\ length (PrimaryHDU :: tables) = S (length (self st))
    /\ tables = map (fun spec => table_to_hdu stored (Table_of spec)) (self st)
    /\ forallb has_wav_and_flux tables = true
    /\ (forall path, path <> outroot +:+ ".fits" ->
                     fs st' !! path = fs st !! path)
    /\ trace st' = trace st ++ [FitsWrite (outroot +:+ ".fits")]
    /\ self st' = self st.
Proof.
  eexists. eexists. split; [apply save_multi_multitab_run|].
  cbn [self fs trace]. split; [apply lookup_insert_eq|].
  split; [cbn [length]; rewrite length_map; reflexivity|].
  split; [reflexivity|]. split.
  - rewrite forallb_forall. intros h Hin. apply in_map_iff in Hin.
    destruct Hin as (spec & <- & _). apply table_of_order_has_columns.
  - split; [|split; reflexivity].
    intros path Hne. apply lookup_insert_ne. congruence.
Qed.

(** C7: for any format other than 'multitab', [save_multi] returns normally,
    prints its three-line notice and changes neither the filesystem nor
    the collection. *)
Theorem save_multi_other_format_is_noop
    (outroot outformat : string) (st : state) :
  outformat <> "multitab" ->
  save_multi stored outroot outformat st =
  (mkState (self st) (fs st) (trace st ++ not_implemented_notice),
   Returned tt).
Proof.
  intros Hne. unfold save_multi.
  destruct (String.eqb outformat "multitab") eqn:E.
  - apply String.eqb_eq in E. contradiction.
  - unfold bind, print, emit. cbn [self fs trace].
    rewrite <- !app_assoc. reflexivity.
Qed.

(** C3: a collection saved in the combined format and constructed again
    from the file written has the same length, and its k-th order holds
    the columns of the k-th order saved, each cell as the table stores
    it. *)
Theorem save_then_load_roundtrip
    (orders : Ech1d) (outroot : string) (fs0 : filesystem)
    (trace0 : list event) (filelist : option (list string))
    (informat : option string) (verbose : bool) :
  exists st' loaded,
    save_multi stored outroot "multitab" (mkState orders fs0 trace0)
    = (st', Returned tt)
    /\ Ech1d_new None (Some (outroot +:+ ".fits")) filelist informat verbose
                 (fs st')
       = (opening verbose (outroot +:+ ".fits"), Returned loaded)
    /\ length loaded = length orders
    /\ loaded = map (as_stored stored) orders.
Proof.
  eexists. exists (map (as_stored stored) orders).
  split; [apply save_multi_multitab_run|]. cbn [self fs trace].
  split; [|split; [apply length_map|reflexivity]].
  apply Ech1d_new_file
    with (primary := PrimaryHDU)
         (records := map (fun spec => table_to_hdu stored (Table_of spec))
                         orders).
  - apply lookup_insert_eq.
  - induction orders as [|spec rest IH]; cbn [map]; constructor;
      [apply read_back_order|exact IH].
Qed.

End Exporter.

(** When a table stores every cell as it is, the round trip gives the
    collection back unchanged. *)
Lemma as_stored_exact (spec : Spec1d) : as_stored (fun x => x) spec = spec.
Proof.
  destruct spec as [w f [v|] [k|]]; unfold as_stored; cbn;
    rewrite ?map_id; reflexivity.
Qed.

Lemma save_multi_other_format_is_noop_witness :
  save_multi (fun x => x) "out" "text"
    (mkState [mkSpec1d [4000 # 1] [1 # 1] None None] ∅ [])
  = (mkState [mkSpec1d [4000 # 1] [1 # 1] None None] ∅
       ([] ++ not_implemented_notice),
     Returned tt).
Proof.
  apply (save_multi_other_format_is_noop (fun x => x) "out" "text"
           (mkState [mkSpec1d [4000 # 1] [1 # 1] None None] ∅ [])).
  discriminate.
Defined.

(** * Properties of the plot driver *)

(** ** Comparisons and column reductions *)

Lemma float_lt_true (x y : pyfloat) : float_lt x y = true -> (x < y)%Q.
Proof.
  unfold float_lt. destruct (Qcompare_spec x y) as [E|L|G]; intros Hb;
    [discriminate|assumption|discriminate].
Qed.

Lemma float_lt_false (x y : pyfloat) : float_lt x y = false -> (y <= x)%Q.
Proof.
  unfold float_lt. destruct (Qcompare_spec x y) as [E|L|G]; intros H.
  - rewrite E. apply Qle_refl.
  - discriminate.
  - apply Qlt_le_weak. exact G.
Qed.

Lemma float_gt_true (x y : pyfloat) : float_gt x y = true -> (y < x)%Q.
Proof.
  unfold float_gt. destruct (Qcompare_spec x y) as [E|L|G]; intros Hb;
    [discriminate|discriminate|assumption].
Qed.

Lemma float_gt_false (x y : pyfloat) : float_gt x y = false -> (x <= y)%Q.
Proof.
  unfold float_gt. destruct (Qcompare_spec x y) as [E|L|G]; intros H.
  - rewrite E. apply Qle_refl.
  - apply Qlt_le_weak. exact L.
  - discriminate.
Qed.

(** The running minimum of a scan is one of the values seen and lies below
    all of them. *)
Lemma fold_min_spec (xs : list pyfloat) :
  forall x,
    let m := fold_left (fun m y => if float_lt y m then y else m) xs x in
    In m (x :: xs) /\ (m <= x)%Q /\ forall w, In w xs -> (m <= w)%Q.
Proof.
  induction xs as [|y ys IH]; intros x; cbn [fold_left].
  - split; [left; reflexivity|]. split; [apply Qle_refl|intros w []].
  - destruct (IH (if float_lt y x then y else x)) as (Hin & Hle & Hall).
    destruct (float_lt y x) eqn:E.
    + apply float_lt_true in E. split; [|split].
      * destruct Hin as [<-|Hin]; [right; left; reflexivity|right; right; exact Hin].
      * apply Qle_trans with y; [exact Hle|apply Qlt_le_weak; exact E].
      * intros w [<-|Hw]; [exact Hle|apply Hall; exact Hw].
    + apply float_lt_false in E. split; [|split].
      * destruct Hin as [<-|Hin]; [left; reflexivity|right; right; exact Hin].
      * exact Hle.
      * intros w [<-|Hw]; [apply Qle_trans with x; assumption|apply Hall; exact Hw].
Qed.

Lemma fold_max_spec (xs : list pyfloat) :
  forall x,
    let m := fold_left (fun m y => if float_gt y m then y else m) xs x in
    In m (x :: xs) /\ (x <= m)%Q /\ forall w, In w xs -> (w <= m)%Q.
Proof.
  induction xs as [|y ys IH]; intros x; cbn [fold_left].
  - split; [left; reflexivity|]. split; [apply Qle_refl|intros w []].
  - destruct (IH (if float_gt y x then y else x)) as (Hin & Hle & Hall).
    destruct (float_gt y x) eqn:E.
    + apply float_gt_true in E. split; [|split].
      * destruct Hin as [<-|Hin]; [right; left; reflexivity|right; right; exact Hin].
      * apply Qle_trans with y; [apply Qlt_le_weak; exact E|exact Hle].
      * intros w [<-|Hw]; [exact Hle|apply Hall; exact Hw].
    + apply float_gt_false in E. split; [|split].
      * destruct Hin as [<-|Hin]; [left; reflexivity|right; right; exact Hin].
      * exact Hle.
      * intros w [<-|Hw]; [apply Qle_trans with x; assumption|apply Hall; exact Hw].
Qed.

Lemma col_min_spec (c : list pyfloat) (m : pyfloat) :
  col_min c = Some m -> In m c /\ forall w, In w c -> (m <= w)%Q.
Proof.
  destruct c as [|x xs]; [discriminate|]. cbn [col_min]. intros [= <-].
  destruct (fold_min_spec xs x) as (Hin & Hle & Hall).
  split; [exact Hin|]. intros w [<-|Hw]; [exact Hle|apply Hall; exact Hw].
Qed.

Lemma col_max_spec (c : list pyfloat) (m : pyfloat) :
  col_max c = Some m -> In m c /\ forall w, In w c -> (w <= m)%Q.
Proof.
  destruct c as [|x xs]; [discriminate|]. cbn [col_max]. intros [= <-].
  destruct (fold_max_spec xs x) as (Hin & Hle & Hall).
  split; [exact Hin|]. intros w [<-|Hw]; [exact Hle|apply Hall; exact Hw].
Qed.

Lemma set_labels_eq (count : nat) (spec : Spec1d) (t : title_val) :
  set_labels count spec t =
  if count_is_len_minus_1 count spec then (default_title t, true)
  else (TitleFalse, false).
Proof. reflexivity. Qed.

Section Plotting.

Variable mark_lines_raises : Spec1d -> string -> option exc.

Ltac run_turn :=
  cbv beta iota zeta delta
      [plot_body try_except handling mark_lines wav_min wav_max
       bind emit raise ret marking_outcome usesmooth_of].

Ltac crunch :=
  repeat (cbn [self fs trace fst snd];
          match goal with
          | |- context [match mark_lines_raises ?s ?l with _ => _ end] =>
              destruct (mark_lines_raises s l)
          | |- context [if catches ?c ?e then _ else _] =>
              destruct (catches c e)
          | |- context [match col_min ?c with _ => _ end] =>
              destruct (col_min c)
          | |- context [match col_max ?c with _ => _ end] =>
              destruct (col_max c)
          | |- context [if float_lt ?a ?b then _ else _] =>
              destruct (float_lt a b)
          | |- context [if float_gt ?a ?b then _ else _] =>
              destruct (float_gt a b)
          end).

(** One turn of the loop, in closed form: the calls it makes and the
    values it leaves in the loop variables. *)
Lemma plot_body_eq (mode : string) (z : option pyfloat) (linetype : string)
    (smo : option pyfloat) (verbose : bool) (kw : kwargs)
    (count : nat) (spec : Spec1d) (v : loop_vars) (st : state) :
  plot_body mark_lines_raises mode z linetype smo verbose kw count spec v st
  = (mkState (self st) (fs st)
       (trace st
        ++ plot_call smo spec mode (fst (set_labels count spec (title v)))
                     verbose kw
        :: fst (marking_outcome mark_lines_raises z linetype smo spec
                  (snd (set_labels count spec (title v))))),
     match snd (marking_outcome mark_lines_raises z linetype smo spec
                  (snd (set_labels count spec (title v)))) with
     | Some e => Raised e
     | None =>
         match col_min (wav spec), col_max (wav spec) with
         | Some lo, Some hi =>
             Returned (mkVars (i v + 1)
                         (if float_lt lo (wmin v) then lo else wmin v)
                         (if float_gt hi (wmax v) then hi else wmax v)
                         (fst (set_labels count spec (title v)))
                         (snd (set_labels count spec (title v))))
         | None, _ => Raised (zero_size "minimum")
         | Some _, None => Raised (zero_size "maximum")
         end
     end).
Proof.
  run_turn. destruct (set_labels count spec (title v)) as [t s].
  destruct smo as [w|], z as [zv|]; crunch;
    cbn [self fs trace fst snd]; rewrite <- ?app_assoc; reflexivity.
Qed.

(** The loop over a concatenation is the loop over its first part followed,
    if that returns, by the loop over the rest. *)
Lemma plot_loop_app (mode : string) (z : option pyfloat) (linetype : string)
    (smo : option pyfloat) (verbose : bool) (kw : kwargs)
    (before after : list Spec1d) :
  forall (count : nat) (v : loop_vars) (st : state),
    plot_loop mark_lines_raises mode z linetype smo verbose kw count
              (before ++ after) v st
    = match plot_loop mark_lines_raises mode z linetype smo verbose kw count
                      before v st with
      | (st1, Returned v1) =>
          plot_loop mark_lines_raises mode z linetype smo verbose kw
                    (count + length before) after v1 st1
      | (st1, Raised e) => (st1, Raised e)
      end.
Proof.
  induction before as [|spec rest IH]; intros count v st.
  - cbn. rewrite Nat.add_0_r. reflexivity.
  - cbn [app plot_loop length]. unfold bind.
    destruct (plot_body mark_lines_raises mode z linetype smo verbose kw
                        count spec v st) as [st1 [v1|e]]; [|reflexivity].
    rewrite IH. replace (S count + length rest) with (count + S (length rest))
      by lia. reflexivity.
Qed.

(** The loop touches neither the collection nor the filesystem and only
    adds to the trace. *)
Lemma plot_loop_extends (mode : string) (z : option pyfloat)
    (linetype : string) (smo : option pyfloat) (verbose : bool) (kw : kwargs)
    (orders : list Spec1d) :
  forall (count : nat) (v : loop_vars) (st : state),
    exists later r,
      plot_loop mark_lines_raises mode z linetype smo verbose kw count
                orders v st
      = (mkState (self st) (fs st) (trace st ++ later), r).
Proof.
  induction orders as [|spec rest IH]; intros count v st.
  - exists [], (Returned v). cbn. rewrite app_nil_r. destruct st; reflexivity.
  - cbn [plot_loop]. unfold bind at 1. rewrite plot_body_eq.
    destruct (snd (marking_outcome _ _ _ _ _ _)) as [e|].
    + eexists. eexists. reflexivity.
    + destruct (col_min (wav spec)) as [lo|];
        [destruct (col_max (wav spec)) as [hi|]|];
        try (eexists; eexists; reflexivity).
      match goal with
      | |- context [plot_loop _ _ _ _ _ _ _ ?c rest ?v1 ?st1] =>
          destruct (IH c v1 st1) as (later & r & Hrun); rewrite Hrun
      end.
      cbn [self fs trace]. rewrite <- app_assoc.
      eexists. eexists. reflexivity.
Qed.

(** When the loop has run through the orders [before], the order that
    follows is drawn next: the trace of [plot_all] continues with its plot
    call and its [mark_lines] calls. *)
Lemma plot_all_turn (plotmode mode : string) (title0 : title_val)
    (z : option pyfloat) (showz0 : bool) (linetype : string)
    (smo : option pyfloat) (verbose : bool) (kw : kwargs)
    (before after : list Spec1d) (spec : Spec1d)
    (fs0 : filesystem) (tr : list event) (st1 : state) (v1 : loop_vars) :
  plot_loop mark_lines_raises mode z linetype smo verbose kw 0 before
            (mkVars 0 wmin_start wmax_start title0 showz0)
            (mkState (before ++ spec :: after) fs0 tr)
  = (st1, Returned v1) ->
  exists later,
    trace (fst (plot_all mark_lines_raises plotmode mode title0 z showz0
                         linetype smo verbose kw
                         (mkState (before ++ spec :: after) fs0 tr)))
    = trace st1
      ++ plot_call smo spec mode
           (fst (set_labels (length before) spec (title v1))) verbose kw
      :: fst (marking_outcome mark_lines_raises z linetype smo spec
                (snd (set_labels (length before) spec (title v1))))
      ++ later.
Proof.
  intros Hreach. unfold plot_all. unfold bind at 1, get_self. cbn [self].
  unfold bind at 1. rewrite plot_loop_app, Hreach. cbn [Nat.add plot_loop].
  unfold bind at 1. rewrite plot_body_eq.
  destruct (snd (marking_outcome _ _ _ _ _ _)) as [e|].
  { exists []. cbn [fst trace]. rewrite app_nil_r. reflexivity. }
  destruct (col_min (wav spec)) as [lo|];
    [destruct (col_max (wav spec)) as [hi|]|];
    try (exists []; cbn [fst trace]; rewrite app_nil_r; reflexivity).
  match goal with
  | |- context [plot_loop _ _ _ _ _ _ _ ?c after ?v2 ?st2] =>
      destruct (plot_loop_extends mode z linetype smo verbose kw after c v2 st2)
        as (later & r & Hrun); rewrite Hrun
  end.
  destruct r as [v3|e]; cbn [emit fst trace self fs].
  - exists (later ++ [Xlim (wmin v3) (wmax v3)]).
    rewrite <- !app_assoc. reflexivity.
  - exists later. rewrite <- !app_assoc. reflexivity.
Qed.

(** What a turn that returns has done. *)
Lemma plot_body_returned (mode : string) (z : option pyfloat)
    (linetype : string) (smo : option pyfloat) (verbose : bool) (kw : kwargs)
    (count : nat) (spec : Spec1d) (v v' : loop_vars) (st st' : state) :
  plot_body mark_lines_raises mode z linetype smo verbose kw count spec v st
  = (st', Returned v') ->
  exists lo hi,
    col_min (wav spec) = Some lo /\ col_max (wav spec) = Some hi
    /\ v' = mkVars (i v + 1)
              (if float_lt lo (wmin v) then lo else wmin v)
              (if float_gt hi (wmax v) then hi else wmax v)
              (fst (set_labels count spec (title v)))
              (snd (set_labels count spec (title v))).
Proof.
  rewrite plot_body_eq.
  destruct (snd (marking_outcome _ _ _ _ _ _)) as [e|]; [discriminate|].
  destruct (col_min (wav spec)) as [lo|]; [|discriminate].
  destruct (col_max (wav spec)) as [hi|]; [|discriminate].
  intros [= _ <-]. exists lo, hi. repeat split.
Qed.

Lemma marking_outcome_head (z : option pyfloat) (linetype : string)
    (smo : option pyfloat) (spec : Spec1d) (showz' : bool) :
  exists more,
    fst (marking_outcome mark_lines_raises z linetype smo spec showz')
    = match z with
      | Some zv => [MarkLines spec linetype zv showz' (usesmooth_of smo)]
      | None => []
      end ++ more.
Proof.
  unfold marking_outcome, usesmooth_of. destruct z as [zv|]; [|exists []; reflexivity].
  destruct (mark_lines_raises spec linetype) as [e|]; [|exists []; reflexivity].
  destruct (catches NameError e); eexists; reflexivity.
Qed.

Lemma default_title_idem (t : title_val) :
  default_title (default_title t) = default_title t.
Proof. destruct t; reflexivity. Qed.

(** The title that the loop carries into the next turn: the caller's title
    before the first order; afterwards 'Extracted Spectrum' or the
    caller's own title if every order so far passed the test, and [False]
    as soon as one did not. *)
Lemma running_title (mode : string) (z : option pyfloat) (linetype : string)
    (smo : option pyfloat) (verbose : bool) (kw : kwargs)
    (orders : list Spec1d) :
  forall (count : nat) (v v1 : loop_vars) (st st1 : state),
    plot_loop mark_lines_raises mode z linetype smo verbose kw count orders
              v st = (st1, Returned v1) ->
    title v1 = match orders with
               | [] => title v
               | _ :: _ => if all_pass count orders
                           then default_title (title v) else TitleFalse
               end.
Proof.
  induction orders as [|spec rest IH]; intros count v v1 st st1 Hrun.
  - cbn in Hrun. injection Hrun as _ <-. reflexivity.
  - cbn [plot_loop] in Hrun. unfold bind at 1 in Hrun.
    destruct (plot_body mark_lines_raises mode z linetype smo verbose kw
                        count spec v st) as [st2 [v2|e]] eqn:Hturn;
      [|discriminate].
    apply plot_body_returned in Hturn.
    destruct Hturn as (lo & hi & _ & _ & ->).
    apply IH in Hrun. cbn [title] in Hrun. rewrite Hrun.
    rewrite set_labels_eq. cbn [all_pass].
    destruct (count_is_len_minus_1 count spec); cbn [fst andb].
    + destruct rest as [|s2 r2]; [reflexivity|].
      rewrite default_title_idem. reflexivity.
    + destruct rest as [|s2 r2]; [reflexivity|].
      destruct (all_pass (S count) (s2 :: r2)); reflexivity.
Qed.

(** C1, amended: for the order reached at index [count] (the loop over
    the orders before it has returned), the title passed to its plot call
    and the [showz] flag passed to its [mark_lines] call are decided by
    the test [count == len(spec) - 1] on that order's own number of
    samples: when it holds, [showz] is true and the title is the loop's
    title variable with 'Extracted Spectrum' in place of [None]; otherwise
    both are [False].  The title variable is the caller's title before the
    first order; after that it is the caller's title (or the default) if
    every order so far passed the test, and [False] as soon as one did
    not. *)
Theorem labels_compare_count_with_order_length
    (plotmode mode : string) (title0 : title_val)
    (z : option pyfloat) (showz0 : bool) (linetype : string)
    (smo : option pyfloat) (verbose : bool) (kw : kwargs)
    (before after : list Spec1d) (spec : Spec1d)
    (fs0 : filesystem) (tr : list event) (st1 : state) (v1 : loop_vars) :
  plot_loop mark_lines_raises mode z linetype smo verbose kw 0 before
            (mkVars 0 wmin_start wmax_start title0 showz0)
            (mkState (before ++ spec :: after) fs0 tr)
  = (st1, Returned v1) ->
  let count := length before in
  let passes := (Z.of_nat count =? Z.of_nat (len_spec spec) - 1)%Z in
  let title' := if passes
                then match title v1 with
                     | TitleNone => TitleStr "Extracted Spectrum"
                     | given => given
                     end
                else TitleFalse in
  let showz' := if passes then true else false in
  (exists later,
     trace (fst (plot_all mark_lines_raises plotmode mode title0 z showz0
                          linetype smo verbose kw
                          (mkState (before ++ spec :: after) fs0 tr)))
     = trace st1
       ++ plot_call smo spec mode title' verbose kw
       :: match z with
          | Some zv => [MarkLines spec linetype zv showz' (usesmooth_of smo)]
          | None => []
          end
       ++ later)
  /\ title v1 = match before with
                | [] => title0
                | _ :: _ => if all_pass 0 before
                            then default_title title0 else TitleFalse
                end.
Proof.
  intros Hreach count passes title' showz'. split.
  - destruct (plot_all_turn plotmode mode title0 z showz0 linetype smo verbose
                kw before after spec fs0 tr st1 v1 Hreach) as [later Htrace].
    destruct (marking_outcome_head z linetype smo spec
                (snd (set_labels (length before) spec (title v1))))
      as [more Hmore].
    exists (more ++ later). rewrite Htrace, Hmore.
    subst title' showz' passes count. unfold set_labels.
    destruct (Z.of_nat (length before) =? Z.of_nat (len_spec spec) - 1)%Z;
      destruct (title v1); cbn [fst snd]; rewrite <- !app_assoc;
      reflexivity.
  - apply running_title in Hreach. exact Hreach.
Qed.

(** ** The fallback of the marking step *)

Lemma marking_fallback (zv : pyfloat) (linetype : string)
    (smo : option pyfloat) (spec : Spec1d) (showz' : bool) (e : exc) :
  mark_lines_raises spec linetype = Some e ->
  catches NameError e = true ->
  marking_outcome mark_lines_raises (Some zv) linetype smo spec showz'
  = ([MarkLines spec linetype zv showz' (usesmooth_of smo);
      MarkLines spec "strongem" zv showz' (usesmooth_of smo)],
     match mark_lines_raises spec "strongem" with
     | None => None
     | Some e2 => Some (raised_during e e2)
     end).
Proof.
  intros Hraise Hname. unfold marking_outcome. rewrite Hraise, Hname.
  reflexivity.
Qed.

(** An exception of [mark_lines] that is not a [NameError] ends the turn
    and reaches the caller as it is, without a second call. *)
Lemma other_failures_propagate (mode : string) (zv : pyfloat)
    (linetype : string) (smo : option pyfloat) (verbose : bool) (kw : kwargs)
    (count : nat) (spec : Spec1d) (v : loop_vars) (st : state) (e : exc) :
  mark_lines_raises spec linetype = Some e ->
  catches NameError e = false ->
  plot_body mark_lines_raises mode (Some zv) linetype smo verbose kw
            count spec v st
  = (mkState (self st) (fs st)
       (trace st
        ++ [plot_call smo spec mode (fst (set_labels count spec (title v)))
                      verbose kw;
            MarkLines spec linetype zv
                      (snd (set_labels count spec (title v)))
                      (usesmooth_of smo)]),
     Raised e).
Proof.
  intros Hraise Hname. rewrite plot_body_eq. unfold marking_outcome.
  rewrite Hraise, Hname. reflexivity.
Qed.

Lemma nonempty_column (c : list pyfloat) :
  c <> [] -> exists lo hi, col_min c = Some lo /\ col_max c = Some hi.
Proof.
  destruct c as [|x xs]; [intros H; destruct H; reflexivity|].
  intros _. eexists. eexists. split; reflexivity.
Qed.

(** C9: when a redshift is given and [mark_lines] raises a [NameError] for
    the requested line type at an order that the loop reaches, the same
    order's [mark_lines] is called again with 'strongem' and the same
    redshift, [showz] and [usesmooth]; the [NameError] does not end the
    loop: if the second call completes the turn runs to its end, and if
    the second call raises, that second exception (with the [NameError]
    as its context) is what [plot_all] raises. *)
Theorem unrecognized_linetype_falls_back
    (plotmode mode : string) (title0 : title_val)
    (zv : pyfloat) (showz0 : bool) (linetype : string)
    (smo : option pyfloat) (verbose : bool) (kw : kwargs)
    (before after : list Spec1d) (spec : Spec1d)
    (fs0 : filesystem) (tr : list event) (st1 : state) (v1 : loop_vars)
    (e : exc) :
  plot_loop mark_lines_raises mode (Some zv) linetype smo verbose kw 0 before
            (mkVars 0 wmin_start wmax_start title0 showz0)
            (mkState (before ++ spec :: after) fs0 tr)
  = (st1, Returned v1) ->
  mark_lines_raises spec linetype = Some e ->
  catches NameError e = true ->
  let title' := fst (set_labels (length before) spec (title v1)) in
  let showz' := snd (set_labels (length before) spec (title v1)) in
  (exists later,
     trace (fst (plot_all mark_lines_raises plotmode mode title0 (Some zv)
                          showz0 linetype smo verbose kw
                          (mkState (before ++ spec :: after) fs0 tr)))
     = trace st1
       ++ [plot_call smo spec mode title' verbose kw;
           MarkLines spec linetype zv showz' (usesmooth_of smo);
           MarkLines spec "strongem" zv showz' (usesmooth_of smo)]
       ++ later)
  /\ (mark_lines_raises spec "strongem" = None -> wav spec <> [] ->
      exists st2 v2,
        plot_loop mark_lines_raises mode (Some zv) linetype smo verbose kw 0
                  (before ++ [spec])
                  (mkVars 0 wmin_start wmax_start title0 showz0)
                  (mkState (before ++ spec :: after) fs0 tr)
        = (st2, Returned v2))
  /\ (forall e2,
        mark_lines_raises spec "strongem" = Some e2 ->
        snd (plot_all mark_lines_raises plotmode mode title0 (Some zv)
                      showz0 linetype smo verbose kw
                      (mkState (before ++ spec :: after) fs0 tr))
        = Raised (raised_during e e2)).
Proof.
  intros Hreach Hraise Hname title' showz'. split; [|split].
  - destruct (plot_all_turn plotmode mode title0 (Some zv) showz0 linetype smo
                verbose kw before after spec fs0 tr st1 v1 Hreach)
      as [later Htrace].
    exists later. rewrite Htrace.
    rewrite (marking_fallback zv linetype smo spec _ e Hraise Hname).
    reflexivity.
  - intros Hagain Hwav. rewrite plot_loop_app, Hreach.
    cbn [Nat.add plot_loop]. unfold bind at 1. rewrite plot_body_eq.
    rewrite (marking_fallback zv linetype smo spec _ e Hraise Hname).
    rewrite Hagain. cbn [snd].
    destruct (nonempty_column (wav spec) Hwav) as (lo & hi & Hlo & Hhi).
    rewrite Hlo, Hhi. eexists. eexists. reflexivity.
  - intros e2 Hagain. unfold plot_all. unfold bind at 1, get_self.
    cbn [self]. unfold bind at 1. rewrite plot_loop_app, Hreach.
    cbn [Nat.add plot_loop]. unfold bind at 1. rewrite plot_body_eq.
    rewrite (marking_fallback zv linetype smo spec _ e Hraise Hname).
    rewrite Hagain. reflexivity.
Qed.

(** ** The axis limits *)

Lemma all_wavs_cons (spec : Spec1d) (rest : list Spec1d) :
  all_wavs (spec :: rest) = wav spec ++ all_wavs rest.
Proof. reflexivity. Qed.

(** The loop leaves in [wmin] the least of its starting value and all the
    wavelengths it has seen, and in [wmax] the greatest. *)
Lemma plot_loop_limits (mode : string) (z : option pyfloat)
    (linetype : string) (smo : option pyfloat) (verbose : bool) (kw : kwargs)
    (orders : list Spec1d) :
  forall (count : nat) (v v1 : loop_vars) (st st1 : state),
    plot_loop mark_lines_raises mode z linetype smo verbose kw count orders
              v st = (st1, Returned v1) ->
    (In (wmin v1) (wmin v :: all_wavs orders)
     /\ (wmin v1 <= wmin v)%Q
     /\ forall w, In w (all_wavs orders) -> (wmin v1 <= w)%Q)
    /\ (In (wmax v1) (wmax v :: all_wavs orders)
        /\ (wmax v <= wmax v1)%Q
        /\ forall w, In w (all_wavs orders) -> (w <= wmax v1)%Q).
Proof.
  induction orders as [|spec rest IH]; intros count v v1 st st1 Hrun.
  - cbn in Hrun. injection Hrun as _ <-.
    split; (split; [left; reflexivity|split; [apply Qle_refl|intros w []]]).
  - cbn [plot_loop] in Hrun. unfold bind at 1 in Hrun.
    destruct (plot_body mark_lines_raises mode z linetype smo verbose kw
                        count spec v st) as [st2 [v2|e]] eqn:Hturn;
      [|discriminate].
    apply plot_body_returned in Hturn.
    destruct Hturn as (lo & hi & Hlo & Hhi & ->).
    apply IH in Hrun. cbn [wmin wmax] in Hrun.
    destruct Hrun as ((Hin & Hle & Hall) & (Hin' & Hle' & Hall')).
    apply col_min_spec in Hlo. destruct Hlo as [Hlo_in Hlo_le].
    apply col_max_spec in Hhi. destruct Hhi as [Hhi_in Hhi_le].
    rewrite all_wavs_cons. split.
    + destruct (float_lt lo (wmin v)) eqn:E.
      * apply float_lt_true in E. split; [|split].
        -- destruct Hin as [<-|Hin];
             [right; apply in_or_app; left; exact Hlo_in
             |right; apply in_or_app; right; exact Hin].
        -- apply Qle_trans with lo; [exact Hle|apply Qlt_le_weak; exact E].
        -- intros w Hw. apply in_app_or in Hw. destruct Hw as [Hw|Hw].
           ++ apply Qle_trans with lo; [exact Hle|apply Hlo_le; exact Hw].
           ++ apply Hall; exact Hw.
      * apply float_lt_false in E. split; [|split].
        -- destruct Hin as [<-|Hin];
             [left; reflexivity|right; apply in_or_app; right; exact Hin].
        -- exact Hle.
        -- intros w Hw. apply in_app_or in Hw. destruct Hw as [Hw|Hw].
           ++ apply Qle_trans with (wmin v); [exact Hle|].
              apply Qle_trans with lo; [exact E|apply Hlo_le; exact Hw].
           ++ apply Hall; exact Hw.
    + destruct (float_gt hi (wmax v)) eqn:E.
      * apply float_gt_true in E. split; [|split].
        -- destruct Hin' as [<-|Hin'];
             [right; apply in_or_app; left; exact Hhi_in
             |right; apply in_or_app; right; exact Hin'].
        -- apply Qle_trans with hi; [apply Qlt_le_weak; exact E|exact Hle'].
        -- intros w Hw. apply in_app_or in Hw. destruct Hw as [Hw|Hw].
           ++ apply Qle_trans with hi; [apply Hhi_le; exact Hw|exact Hle'].
           ++ apply Hall'; exact Hw.
      * apply float_gt_false in E. split; [|split].
        -- destruct Hin' as [<-|Hin'];
             [left; reflexivity|right; apply in_or_app; right; exact Hin'].
        -- exact Hle'.
        -- intros w Hw. apply in_app_or in Hw. destruct Hw as [Hw|Hw].
           ++ apply Qle_trans with (wmax v); [|exact Hle'].
              apply Qle_trans with hi; [apply Hhi_le; exact Hw|exact E].
           ++ apply Hall'; exact Hw.
Qed.

Lemma marks_complete_outcome (z : option pyfloat) (linetype : string)
    (smo : option pyfloat) (spec : Spec1d) (showz' : bool) :
  marks_complete mark_lines_raises z linetype spec = true ->
  snd (marking_outcome mark_lines_raises z linetype smo spec showz') = None.
Proof.
  unfold marks_complete, marking_outcome. destruct z as [zv|]; [|reflexivity].
  destruct (mark_lines_raises spec linetype) as [e|]; [|reflexivity].
  destruct (catches NameError e); [|discriminate].
  destruct (mark_lines_raises spec "strongem"); [discriminate|reflexivity].
Qed.

(** When every turn runs to its end, so does the loop. *)
Lemma plot_loop_completes (mode : string) (z : option pyfloat)
    (linetype : string) (smo : option pyfloat) (verbose : bool) (kw : kwargs)
    (orders : list Spec1d) :
  forallb (turn_completes mark_lines_raises z linetype) orders = true ->
  forall (count : nat) (v : loop_vars) (st : state),
    exists st1 v1,
      plot_loop mark_lines_raises mode z linetype smo verbose kw count
                orders v st = (st1, Returned v1).
Proof.
  induction orders as [|spec rest IH]; intros Hall count v st.
  - eexists. eexists. reflexivity.
  - cbn [forallb] in Hall. apply andb_prop in Hall.
    destruct Hall as [Hturn Hrest]. unfold turn_completes in Hturn.
    apply andb_prop in Hturn. destruct Hturn as [Hmarks Hwav].
    cbn [plot_loop]. unfold bind at 1. rewrite plot_body_eq.
    rewrite (marks_complete_outcome z linetype smo spec _ Hmarks).
    destruct (nonempty_column (wav spec)) as (lo & hi & Hlo & Hhi).
    { destruct (wav spec); [discriminate Hwav|discriminate]. }
    rewrite Hlo, Hhi. apply IH. exact Hrest.
Qed.

(** A complete run of [plot_all]: the loop's calls, then [plt.xlim] with
    the loop's final [wmin] and [wmax]. *)
Lemma plot_all_run (plotmode mode : string) (title0 : title_val)
    (z : option pyfloat) (showz0 : bool) (linetype : string)
    (smo : option pyfloat) (verbose : bool) (kw : kwargs)
    (orders : list Spec1d) (fs0 : filesystem) (tr : list event) :
  forallb (turn_completes mark_lines_raises z linetype) orders = true ->
  exists events v1,
    plot_loop mark_lines_raises mode z linetype smo verbose kw 0 orders
              (mkVars 0 wmin_start wmax_start title0 showz0)
              (mkState orders fs0 tr)
    = (mkState orders fs0 (tr ++ events), Returned v1)
    /\ plot_all mark_lines_raises plotmode mode title0 z showz0 linetype smo
                verbose kw (mkState orders fs0 tr)
       = (mkState orders fs0 (tr ++ events ++ [Xlim (wmin v1) (wmax v1)]),
          Returned tt).
Proof.
  intros Hall.
  destruct (plot_loop_completes mode z linetype smo verbose kw orders Hall 0
              (mkVars 0 wmin_start wmax_start title0 showz0)
              (mkState orders fs0 tr)) as (st1 & v1 & Hrun).
  destruct (plot_loop_extends mode z linetype smo verbose kw orders 0
              (mkVars 0 wmin_start wmax_start title0 showz0)
              (mkState orders fs0 tr)) as (events & r & Hext).
  rewrite Hext in Hrun. injection Hrun as <- ->.
  exists events, v1. split; [exact Hext|].
  unfold plot_all. unfold bind at 1, get_self. cbn [self].
  unfold bind at 1. rewrite Hext. unfold emit. cbn [self fs trace].
  rewrite <- app_assoc. reflexivity.
Qed.

(** C6, amended: on a collection whose turns all run to their end,
    [plot_all] returns after a final [plt.xlim(lo, hi)] where [lo] is the
    least of 1e12 and all wavelength values and [hi] the greatest of 0 and
    all wavelength values; [lo] is the observed minimum as soon as some
    wavelength is at most 1e12, and [hi] the observed maximum as soon as
    some wavelength is at least 0. *)
Theorem plot_all_limits (plotmode mode : string) (title0 : title_val)
    (z : option pyfloat) (showz0 : bool) (linetype : string)
    (smo : option pyfloat) (verbose : bool) (kw : kwargs)
    (orders : list Spec1d) (fs0 : filesystem) (tr : list event) :
  forallb (turn_completes mark_lines_raises z linetype) orders = true ->
  exists events lo hi,
    plot_all mark_lines_raises plotmode mode title0 z showz0 linetype smo
             verbose kw (mkState orders fs0 tr)
    = (mkState orders fs0 (tr ++ events ++ [Xlim lo hi]), Returned tt)
    /\ is_least lo (wmin_start :: all_wavs orders)
    /\ is_greatest hi (wmax_start :: all_wavs orders)
    /\ ((exists w, In w (all_wavs orders) /\ (w <= wmin_start)%Q) ->
        is_least lo (all_wavs orders))
    /\ ((exists w, In w (all_wavs orders) /\ (wmax_start <= w)%Q) ->
        is_greatest hi (all_wavs orders)).
Proof.
  intros Hall.
  destruct (plot_all_run plotmode mode title0 z showz0 linetype smo verbose kw
              orders fs0 tr Hall) as (events & v1 & Hloop & Hrun).
  apply plot_loop_limits in Hloop. cbn [wmin wmax] in Hloop.
  destruct Hloop as ((Hin & Hle & Hlow) & (Hin' & Hle' & Hhigh)).
  exists events, (wmin v1), (wmax v1). split; [exact Hrun|].
  split; [|split; [|split]].
  - split; [exists (wmin v1); split; [exact Hin|apply Qeq_refl]|].
    intros w [<-|Hw]; [exact Hle|apply Hlow; exact Hw].
  - split; [exists (wmax v1); split; [exact Hin'|apply Qeq_refl]|].
    intros w [<-|Hw]; [exact Hle'|apply Hhigh; exact Hw].
  - intros (w & Hw & Hsmall). split; [|exact Hlow].
    destruct Hin as [Hstart|Hin].
    + exists w. split; [exact Hw|]. apply Qle_antisym.
      * rewrite <- Hstart. exact Hsmall.
      * apply Hlow. exact Hw.
    + exists (wmin v1). split; [exact Hin|apply Qeq_refl].
  - intros (w & Hw & Hbig). split; [|exact Hhigh].
    destruct Hin' as [Hstart|Hin'].
    + exists w. split; [exact Hw|]. apply Qle_antisym.
      * apply Hhigh. exact Hw.
      * rewrite <- Hstart. exact Hbig.
    + exists (wmax v1). split; [exact Hin'|apply Qeq_refl].
Qed.

End Plotting.

(** ** Concrete runs *)

Lemma labels_compare_count_with_order_length_witness :
  exists later,
    trace (fst (plot_all never_raises "single" "input" TitleNone
                         (Some (1 # 2)) true "em" None false []
                         (mkState [order_a; order_b] ∅ [])))
    = [SpecPlot order_a "input" TitleFalse [];
       MarkLines order_a "em" (1 # 2) false false]
      ++ SpecPlot order_b "input" TitleFalse []
      :: [MarkLines order_b "em" (1 # 2) true false]
      ++ later.
Proof.
  apply (proj1 (labels_compare_count_with_order_length
                  never_raises "single" "input" TitleNone (Some (1 # 2)) true
                  "em" None false [] [order_a] [] order_b ∅ []
                  (mkState [order_a; order_b] ∅
                     [SpecPlot order_a "input" TitleFalse [];
                      MarkLines order_a "em" (1 # 2) false false])
                  (mkVars 1 (4000 # 1) (5000 # 1) TitleFalse false)
                  eq_refl)).
Defined.

(** C1, as stated, fails: in the collection [order_a; order_b] plotted
    with no title given, the second order passes the test (index 1, two
    samples) and its [mark_lines] call has [showz] true, yet it is drawn
    with the title [False] and not with 'Extracted Spectrum': the first
    order failed the test and left [False] in the title variable. *)
Lemma title_not_defaulted_after_a_failed_order :
  exists drawn_title,
    trace (fst (plot_all never_raises "single" "input" TitleNone
                         (Some (1 # 2)) true "em" None false []
                         (mkState [order_a; order_b] ∅ [])))
    = [SpecPlot order_a "input" TitleFalse [];
       MarkLines order_a "em" (1 # 2) false false;
       SpecPlot order_b "input" drawn_title [];
       MarkLines order_b "em" (1 # 2) true false;
       Xlim (4000 # 1) (6000 # 1)]
    /\ count_is_len_minus_1 1 order_b = true
    /\ title_from_the_title_given TitleNone 1 order_b
       = TitleStr "Extracted Spectrum"
    /\ drawn_title <> title_from_the_title_given TitleNone 1 order_b.
Proof.
  exists TitleFalse. repeat split. discriminate.
Qed.

(** The first order of a collection gets the default title exactly when
    it has a single sample, whatever the length of the collection. *)
Example title_on_single_sample_order :
  trace (fst (plot_all never_raises "single" "input" TitleNone None true
                       "strongem" None false []
                       (mkState [one_sample; order_a; order_b] ∅ [])))
  = [SpecPlot one_sample "input" (TitleStr "Extracted Spectrum") [];
     SpecPlot order_a "input" TitleFalse [];
     SpecPlot order_b "input" TitleFalse [];
     Xlim (4000 # 1) (6000 # 1)].
Proof. reflexivity. Qed.

(** The last order of a collection gets no title when its number of
    samples is not its index plus one. *)
Example last_order_without_title :
  trace (fst (plot_all never_raises "single" "input" TitleNone None true
                       "strongem" None false []
                       (mkState [order_b; order_a] ∅ [])))
  = [SpecPlot order_b "input" TitleFalse [];
     SpecPlot order_a "input" TitleFalse [];
     Xlim (4000 # 1) (6000 # 1)].
Proof. reflexivity. Qed.

Lemma unrecognized_linetype_falls_back_witness :
  exists later,
    trace (fst (plot_all knows_only_strongem "single" "input" TitleNone
                         (Some (1 # 2)) true "em" None false []
                         (mkState [order_a; order_b] ∅ [])))
    = []
      ++ [SpecPlot order_a "input" TitleFalse [];
          MarkLines order_a "em" (1 # 2) false false;
          MarkLines order_a "strongem" (1 # 2) false false]
      ++ later.
Proof.
  apply (proj1 (unrecognized_linetype_falls_back
                  knows_only_strongem "single" "input" TitleNone (1 # 2) true
                  "em" None false [] [] [order_b] order_a ∅ []
                  (mkState [order_a; order_b] ∅ [])
                  (mkVars 0 wmin_start wmax_start TitleNone true)
                  (Exc NameError ["name 'pm' is not defined"] None)
                  eq_refl eq_refl eq_refl)).
Defined.

(** A [KeyError] from [mark_lines] is not recovered: [plot_all] raises it
    after the first [mark_lines] call. *)
Example KeyError_is_propagated :
  (let run := plot_all raises_KeyError "single" "input" TitleNone
                (Some (1 # 2)) true "em" None false []
                (mkState [order_a; order_b] ∅ []) in
   (trace (fst run), snd run))
  = ([SpecPlot order_a "input" TitleFalse [];
      MarkLines order_a "em" (1 # 2) false false],
     Raised (Exc KeyError ["em"] None)).
Proof. reflexivity. Qed.

(** C6, as stated, fails: on a single order whose wavelengths all exceed
    1e12, the lower limit that [plot_all] sets is not the minimum
    wavelength observed. *)
Lemma limits_not_the_observed_range :
  exists st' events lo hi,
    plot_all never_raises "single" "input" TitleNone None true "strongem"
             None false [] (mkState [far_order] ∅ [])
    = (st', Returned tt)
    /\ trace st' = events ++ [Xlim lo hi]
    /\ ~ is_least lo (all_wavs [far_order]).
Proof.
  eexists. exists [SpecPlot far_order "input" TitleFalse []].
  exists wmin_start, (3000000000000 # 1).
  split; [reflexivity|]. split; [reflexivity|].
  intros [(w & Hin & Heq) _]. cbn in Hin.
  destruct Hin as [<-|[<-|[]]]; discriminate Heq.
Qed.

Lemma plot_all_limits_witness :
  exists events lo hi,
    plot_all never_raises "single" "input" TitleNone None true "strongem"
             None false [] (mkState [order_a; order_b] ∅ [])
    = (mkState [order_a; order_b] ∅ ([] ++ events ++ [Xlim lo hi]),
       Returned tt)
    /\ is_least lo (wmin_start :: all_wavs [order_a; order_b])
    /\ is_greatest hi (wmax_start :: all_wavs [order_a; order_b])
    /\ ((exists w, In w (all_wavs [order_a; order_b])
                   /\ (w <= wmin_start)%Q) ->
        is_least lo (all_wavs [order_a; order_b]))
    /\ ((exists w, In w (all_wavs [order_a; order_b])
                   /\ (wmax_start <= w)%Q) ->
        is_greatest hi (all_wavs [order_a; order_b])).
Proof.
  apply (plot_all_limits never_raises "single" "input" TitleNone None true
           "strongem" None false [] [order_a; order_b] ∅ []).
  reflexivity.
Defined.

(** The two-order scenario: ranges 4000-5000 and 5000-6000 give the limits
    4000 and 6000. *)
Example two_order_scenario :
  plot_all never_raises "single" "input" TitleNone None true "strongem"
           None false [] (mkState [order_a; order_b] ∅ [])
  = (mkState [order_a; order_b] ∅
       [SpecPlot order_a "input" TitleFalse [];
        SpecPlot order_b "input" TitleFalse [];
        Xlim (4000 # 1) (6000 # 1)],
     Returned tt).
Proof. reflexivity. Qed.

(** The same for any two orders with these ranges, whatever else their
    wavelength columns hold. *)
Lemma two_order_ranges
    (mark_lines_raises : Spec1d -> string -> option exc)
    (plotmode mode : string) (title0 : title_val)
    (z : option pyfloat) (showz0 : bool) (linetype : string)
    (smo : option pyfloat) (verbose : bool) (kw : kwargs)
    (first second : Spec1d) (fs0 : filesystem) (tr : list event) :
  forallb (turn_completes mark_lines_raises z linetype) [first; second]
  = true ->
  is_least (4000 # 1) (wav first) -> is_greatest (5000 # 1) (wav first) ->
  is_least (5000 # 1) (wav second) -> is_greatest (6000 # 1) (wav second) ->
  exists events lo hi,
    plot_all mark_lines_raises plotmode mode title0 z showz0 linetype smo
             verbose kw (mkState [first; second] fs0 tr)
    = (mkState [first; second] fs0 (tr ++ events ++ [Xlim lo hi]),
       Returned tt)
    /\ (lo == 4000 # 1)%Q /\ (hi == 6000 # 1)%Q.
Proof.
  intros Hall [(a & Ha & Ea) La] [(b & Hb & Eb) Gb]
         [(c & Hc & Ec) Lc] [(d & Hd & Ed) Gd].
  destruct (plot_all_run mark_lines_raises plotmode mode title0 z showz0
              linetype smo verbose kw [first; second] fs0 tr Hall)
    as (events & v1 & Hloop & Hrun).
  apply plot_loop_limits in Hloop. cbn [wmin wmax] in Hloop.
  destruct Hloop as ((Hin & Hle & Hlow) & (Hin' & Hle' & Hhigh)).
  exists events, (wmin v1), (wmax v1). split; [exact Hrun|].
  unfold all_wavs in *. cbn [map concat] in *. rewrite app_nil_r in *.
  split.
  - apply Qle_antisym.
    + rewrite <- Ea. apply Hlow. apply in_or_app. left. exact Ha.
    + destruct Hin as [<-|Hin]; [discriminate|].
      apply in_app_or in Hin. destruct Hin as [Hin|Hin].
      * apply La. exact Hin.
      * apply Qle_trans with (5000 # 1); [discriminate|apply Lc; exact Hin].
  - apply Qle_antisym.
    + destruct Hin' as [<-|Hin']; [discriminate|].
      apply in_app_or in Hin'. destruct Hin' as [Hin'|Hin'].
      * apply Qle_trans with (5000 # 1); [apply Gb; exact Hin'|discriminate].
      * apply Gd. exact Hin'.
    + rewrite <- Ed. apply Hhigh. apply in_or_app. right. exact Hd.
Qed.

(** * Further properties of the constructor *)

Section ConstructionMore.

(** The file branch of [__init__], step by step: the optional line, the
    open, and then either the loop over the records or the bare
    [IOError]. *)
Lemma init_file_run (echfile : string) (filelist : option (list string))
    (informat : option string) (verbose : bool) (st : state) :
  init None (Some echfile) filelist informat verbose st
  = match fs st !! echfile with
    | Some (FitsFile hdus) =>
        init_hdus hdus (range1 (length hdus))
          (mkState (self st) (fs st) (trace st ++ opening verbose echfile))
    | Some (RawFile _) =>
        (mkState (self st) (fs st) (trace st ++ opening verbose echfile),
         Raised (Exc IOError [] (Some not_fits_error)))
    | None =>
        (mkState (self st) (fs st) (trace st ++ opening verbose echfile),
         Raised (Exc IOError [] (Some (missing_file_error echfile))))
    end.
Proof.
  unfold init, opening, pf_open, try_except, handling, bind, print, emit,
         raise, ret.
  destruct verbose; cbn [self fs trace];
    destruct (fs st !! echfile) as [[hdus|content]|];
    cbn [catches exc_cls issubclass exc_class_eqb orb raised_during];
    rewrite <- ?app_assoc; try reflexivity.
  all: rewrite app_nil_r; reflexivity.
Qed.

(** The loop over the records only appends to the collection: it leaves
    the filesystem and the trace alone, and what it appends and how it
    ends do not depend on the state it starts from. *)
Lemma init_hdus_shape (hdu : list HDU) (range : list nat) :
  exists added r,
    forall st,
      init_hdus hdu range st
      = (mkState (self st ++ added) (fs st) (trace st), r).
Proof.
  induction range as [|k rest IH].
  - exists [], (Returned tt). intros [c f t]. cbn. rewrite app_nil_r.
    reflexivity.
  - cbn [init_hdus]. destruct (hdu !! k) as [h|].
    + unfold bind at 1, pure_call.
      destruct (Spec1d_of_hdu h) as [spec|e].
      * destruct IH as (added & r & IH). exists (spec :: added), r.
        intros st. unfold bind at 1. cbn [append]. rewrite IH.
        cbn [self fs trace]. rewrite <- app_assoc. reflexivity.
      * exists [], (Raised e). intros [c f t]. cbn. rewrite app_nil_r.
        reflexivity.
    + eexists [], _. intros [c f t]. cbn. rewrite app_nil_r. reflexivity.
Qed.

(** Reading stops at the first record that cannot be read. *)
Lemma init_hdus_fail (good : list HDU) :
  forall (before rest : list HDU) (bad : HDU) (orders : list Spec1d)
         (e : exc) (st : state),
    Forall2 (fun h spec => Spec1d_of_hdu h = Returned spec) good orders ->
    Spec1d_of_hdu bad = Raised e ->
    init_hdus (before ++ good ++ bad :: rest)
              (seq (length before) (length (good ++ bad :: rest))) st
    = (mkState (self st ++ orders) (fs st) (trace st), Raised e).
Proof.
  induction good as [|h tl IH]; intros before rest bad orders e [c f t] Hread Hbad.
  - inversion Hread; subst. cbn [app length seq init_hdus].
    rewrite list_lookup_middle by reflexivity.
    unfold bind at 1, pure_call. rewrite Hbad. cbn. rewrite app_nil_r.
    reflexivity.
  - inversion Hread as [|? spec ? more Hh Hmore]; subst.
    cbn [app length seq init_hdus].
    rewrite list_lookup_middle by reflexivity.
    unfold bind at 1, pure_call. rewrite Hh.
    unfold bind at 1. cbn [append self fs trace].
    replace (before ++ h :: tl ++ bad :: rest)
      with ((before ++ [h]) ++ tl ++ bad :: rest)
      by (rewrite <- app_assoc; reflexivity).
    replace (S (length before)) with (length (before ++ [h]))
      by (rewrite length_app; cbn; lia).
    rewrite (IH (before ++ [h]) rest bad more e _ Hmore Hbad).
    cbn [self fs trace]. rewrite <- app_assoc. reflexivity.
Qed.

(** X1: a record that cannot be read ends construction with the reader's
    own exception, unchanged: the [IOError] handler covers the open only.
    The orders read before it were appended to the object, which the
    caller never receives, and the records after it are not read. *)
Theorem unreadable_record_propagates
    (echfile : string) (primary bad : HDU) (good rest : list HDU)
    (orders : list Spec1d) (e : exc) (filelist : option (list string))
    (informat : option string) (verbose : bool) (fs0 : filesystem) :
  fs0 !! echfile = Some (FitsFile (primary :: good ++ bad :: rest)) ->
  Forall2 (fun h spec => Spec1d_of_hdu h = Returned spec) good orders ->
  Spec1d_of_hdu bad = Raised e ->
  Ech1d_new None (Some echfile) filelist informat verbose fs0
  = (opening verbose echfile, Raised e)
  /\ forall st,
      fs st = fs0 ->
      init None (Some echfile) filelist informat verbose st
      = (mkState (self st ++ orders) (fs st)
                 (trace st ++ opening verbose echfile),
         Raised e).
Proof.
  intros Hfile Hread Hbad.
  assert (Hinit : forall st, fs st = fs0 ->
            init None (Some echfile) filelist informat verbose st
            = (mkState (self st ++ orders) (fs st)
                       (trace st ++ opening verbose echfile), Raised e)).
  { intros st Hfs. rewrite init_file_run, Hfs, Hfile.
    unfold range1. cbn [length]. rewrite Nat.sub_succ, Nat.sub_0_r.
    rewrite (init_hdus_fail good [primary] rest bad orders e _ Hread Hbad).
    reflexivity. }
  split; [|exact Hinit].
  unfold Ech1d_new. rewrite Hinit by reflexivity. reflexivity.
Qed.

Lemma unreadable_record_propagates_witness :
  Ech1d_new None (Some "ech.fits") None None false
    {["ech.fits" :=
        FitsFile [PrimaryHDU;
                  BinTableHDU [("wav", [4000 # 1]); ("flux", [1 # 1])];
                  BinTableHDU [("flux", [2 # 1])];
                  BinTableHDU [("wav", [6000 # 1]); ("flux", [3 # 1])]]]}
  = (opening false "ech.fits", Raised (Exc KeyError ["wav"] None)).
Proof.
  apply (unreadable_record_propagates
           "ech.fits" PrimaryHDU (BinTableHDU [("flux", [2 # 1])])
           [BinTableHDU [("wav", [4000 # 1]); ("flux", [1 # 1])]]
           [BinTableHDU [("wav", [6000 # 1]); ("flux", [3 # 1])]]
           [mkSpec1d [4000 # 1] [1 # 1] None None]
           (Exc KeyError ["wav"] None) None None false _).
  - apply lookup_singleton_eq.
  - constructor; [reflexivity|constructor].
  - reflexivity.
Defined.

(** X2: [verbose] changes only what is printed: the call returns the same
    collection or raises the same exception with and without it, and the
    only difference in the trace is the "Opening echelle spectrum file"
    line of the file branch. *)
Theorem verbose_only_prints
    (speclist : option (list pyobj)) (echfile : option string)
    (filelist : option (list string)) (informat : option string)
    (fs0 : filesystem) :
  snd (Ech1d_new speclist echfile filelist informat true fs0)
  = snd (Ech1d_new speclist echfile filelist informat false fs0)
  /\ fst (Ech1d_new speclist echfile filelist informat true fs0)
     = match speclist, echfile with
       | None, Some path => [Print ("Opening echelle spectrum file: " +:+ path)]
       | _, _ => []
       end ++ fst (Ech1d_new speclist echfile filelist informat false fs0).
Proof.
  destruct speclist as [speclist|]; [split; reflexivity|].
  destruct echfile as [echfile|]; [|split; reflexivity].
  unfold Ech1d_new. rewrite !init_file_run. cbn [self fs trace app].
  destruct (fs0 !! echfile) as [[hdus|content]|]; [|split; reflexivity..].
  destruct (init_hdus_shape hdus (range1 (length hdus))) as (added & r & Hrun).
  rewrite !Hrun. cbn [self fs trace].
  destruct r; split; reflexivity.
Qed.

(** X3: the constructor never changes the filesystem, and on the object it
    only appends: whatever the arguments and the outcome, the files are as
    before and the collection is its former content followed by what was
    added. *)
Theorem init_only_appends
    (speclist : option (list pyobj)) (echfile : option string)
    (filelist : option (list string)) (informat : option string)
    (verbose : bool) (st : state) :
  fs (fst (init speclist echfile filelist informat verbose st)) = fs st
  /\ exists added,
      self (fst (init speclist echfile filelist informat verbose st))
      = self st ++ added.
Proof.
  destruct speclist as [speclist|].
  - unfold init. rewrite init_speclist_run.
    destruct (forallb isinstance_Spec1d speclist);
      (split; [reflexivity|eexists; reflexivity]).
  - destruct echfile as [echfile|].
    + rewrite init_file_run.
      destruct (fs st !! echfile) as [[hdus|content]|].
      * destruct (init_hdus_shape hdus (range1 (length hdus)))
          as (added & r & Hrun).
        rewrite Hrun. split; [reflexivity|exists added; reflexivity].
      * split; [reflexivity|exists []; cbn; rewrite app_nil_r; reflexivity].
      * split; [reflexivity|exists []; cbn; rewrite app_nil_r; reflexivity].
    + split; [reflexivity|exists []; cbn; rewrite app_nil_r; reflexivity].
Qed.

(** X4: a FITS file with no record after the first, or with no record at
    all, gives an empty collection: [range(1, len(hdu))] is empty, nothing
    is read and no notice is printed. *)
Theorem file_without_orders_gives_empty_collection
    (echfile : string) (hdus : list HDU) (filelist : option (list string))
    (informat : option string) (verbose : bool) (fs0 : filesystem) :
  fs0 !! echfile = Some (FitsFile hdus) ->
  length hdus <= 1 ->
  Ech1d_new None (Some echfile) filelist informat verbose fs0
  = (opening verbose echfile, Returned []).
Proof.
  intros Hfile Hlen. unfold Ech1d_new. rewrite init_file_run.
  cbn [self fs trace]. rewrite Hfile.
  destruct hdus as [|h [|h2 tl]]; [reflexivity|reflexivity|cbn in Hlen; lia].
Qed.

Lemma file_without_orders_gives_empty_collection_witness :
  Ech1d_new None (Some "primary.fits") None None true
    {["primary.fits" := FitsFile [PrimaryHDU]]}
  = (opening true "primary.fits", Returned []).
Proof.
  apply (file_without_orders_gives_empty_collection
           "primary.fits" [PrimaryHDU] None None true _).
  - apply lookup_singleton_eq.
  - cbn. lia.
Defined.

End ConstructionMore.

(** * Further properties of the plot driver *)

Lemma drawn_app (a b : list event) : drawn (a ++ b) = drawn a ++ drawn b.
Proof.
  induction a as [|e a IH]; [reflexivity|].
  cbn [app drawn]. destruct (drawn_order e); rewrite IH; reflexivity.
Qed.

Section PlottingMore.

Variable mark_lines_raises : Spec1d -> string -> option exc.

(** Every event of a marking step is a [mark_lines] call on the order at
    hand with the turn's [usesmooth]. *)
Lemma marking_events (Q : event -> bool) (z : option pyfloat)
    (linetype : string) (smo : option pyfloat) (spec : Spec1d)
    (showz' : bool) :
  (forall lines zv flag,
      Q (MarkLines spec lines zv flag (usesmooth_of smo)) = true) ->
  forallb Q (fst (marking_outcome mark_lines_raises z linetype smo spec
                    showz')) = true.
Proof.
  intros HQ. unfold marking_outcome. destruct z as [zv|]; [|reflexivity].
  destruct (mark_lines_raises spec linetype) as [e|];
    [destruct (catches NameError e)|]; cbn [fst forallb];
    rewrite ?HQ; reflexivity.
Qed.

Lemma drawn_marking (z : option pyfloat) (linetype : string)
    (smo : option pyfloat) (spec : Spec1d) (showz' : bool) :
  drawn (fst (marking_outcome mark_lines_raises z linetype smo spec showz'))
  = [].
Proof.
  unfold marking_outcome. destruct z as [zv|]; [|reflexivity].
  destruct (mark_lines_raises spec linetype) as [e|];
    [destruct (catches NameError e)|]; reflexivity.
Qed.

(** [plot_all] is its loop followed, when the loop returns, by the one
    call of [plt.xlim]. *)
Lemma plot_all_after_loop (plotmode mode : string) (title0 : title_val)
    (z : option pyfloat) (showz0 : bool) (linetype : string)
    (smo : option pyfloat) (verbose : bool) (kw : kwargs)
    (st st1 : state) (r : result loop_vars) :
  plot_loop mark_lines_raises mode z linetype smo verbose kw 0 (self st)
            (mkVars 0 wmin_start wmax_start title0 showz0) st = (st1, r) ->
  plot_all mark_lines_raises plotmode mode title0 z showz0 linetype smo
           verbose kw st
  = match r with
    | Returned v =>
        (mkState (self st1) (fs st1) (trace st1 ++ [Xlim (wmin v) (wmax v)]),
         Returned tt)
    | Raised e => (st1, Raised e)
    end.
Proof.
  intros Hloop. unfold plot_all. unfold bind at 1, get_self.
  unfold bind at 1. rewrite Hloop. destruct r; reflexivity.
Qed.

(** A property of events that every turn's calls have, as long as the
    running title satisfies an invariant, holds of all the calls of the
    loop. *)
Lemma plot_loop_events (P : event -> bool) (Inv : title_val -> Prop)
    (mode : string) (z : option pyfloat) (linetype : string)
    (smo : option pyfloat) (verbose : bool) (kw : kwargs) :
  (forall count spec t, Inv t -> Inv (fst (set_labels count spec t))) ->
  (forall count spec t,
      Inv t ->
      P (plot_call smo spec mode (fst (set_labels count spec t)) verbose kw)
      = true
      /\ forallb P (fst (marking_outcome mark_lines_raises z linetype smo spec
                                         (snd (set_labels count spec t))))
         = true) ->
  forall (orders : list Spec1d) (count : nat) (v : loop_vars) (st : state),
    Inv (title v) ->
    exists later r,
      plot_loop mark_lines_raises mode z linetype smo verbose kw count
                orders v st
      = (mkState (self st) (fs st) (trace st ++ later), r)
      /\ forallb P later = true.
Proof.
  intros Hkeep Hturn.
  induction orders as [|spec rest IH]; intros count v st Hinv.
  - exists [], (Returned v). split; [|reflexivity].
    cbn. rewrite app_nil_r. destruct st; reflexivity.
  - destruct (Hturn count spec (title v) Hinv) as [Hcall Hmarks].
    assert (Hevents : forallb P
              (plot_call smo spec mode (fst (set_labels count spec (title v)))
                         verbose kw
               :: fst (marking_outcome mark_lines_raises z linetype smo spec
                         (snd (set_labels count spec (title v))))) = true).
    { cbn [forallb]. rewrite Hcall, Hmarks. reflexivity. }
    cbn [plot_loop]. unfold bind at 1. rewrite plot_body_eq.
    destruct (snd (marking_outcome _ _ _ _ _ _)) as [e|].
    { eexists. eexists. split; [reflexivity|exact Hevents]. }
    destruct (col_min (wav spec)) as [lo|];
      [destruct (col_max (wav spec)) as [hi|]|];
      try (eexists; eexists; split; [reflexivity|exact Hevents]).
    match goal with
    | |- context [plot_loop _ _ _ _ _ _ _ ?c rest ?v2 ?st2] =>
        destruct (IH c v2 st2) as (later & r & Hrun & Hlater);
          [cbn [title]; apply Hkeep; exact Hinv|rewrite Hrun]
    end.
    cbn [self fs trace]. rewrite <- app_assoc.
    eexists. eexists. split; [reflexivity|].
    rewrite forallb_app, Hevents, Hlater. reflexivity.
Qed.

(** The loop draws the orders one by one from the first: what it has
    drawn is an initial part of the collection, and all of it when the
    loop returns. *)
Lemma plot_loop_drawn (mode : string) (z : option pyfloat) (linetype : string)
    (smo : option pyfloat) (verbose : bool) (kw : kwargs)
    (orders : list Spec1d) :
  forall (count : nat) (v : loop_vars) (st : state),
    exists later r k,
      plot_loop mark_lines_raises mode z linetype smo verbose kw count
                orders v st
      = (mkState (self st) (fs st) (trace st ++ later), r)
      /\ drawn later = firstn k orders
      /\ (forall v', r = Returned v' -> drawn later = orders).
Proof.
  induction orders as [|spec rest IH]; intros count v st.
  - exists [], (Returned v), 0. split; [|split; reflexivity].
    cbn. rewrite app_nil_r. destruct st; reflexivity.
  - assert (Hone : forall t s,
              drawn (plot_call smo spec mode t verbose kw
                     :: fst (marking_outcome mark_lines_raises z linetype smo
                               spec s)) = [spec]).
    { intros t s. cbn [drawn]. rewrite drawn_marking.
      unfold plot_call. destruct smo; reflexivity. }
    cbn [plot_loop]. unfold bind at 1. rewrite plot_body_eq.
    destruct (snd (marking_outcome _ _ _ _ _ _)) as [e|].
    { eexists. eexists. exists 1.
      split; [reflexivity|split; [apply Hone|discriminate]]. }
    destruct (col_min (wav spec)) as [lo|];
      [destruct (col_max (wav spec)) as [hi|]|];
      try (eexists; eexists; exists 1;
           split; [reflexivity|split; [apply Hone|discriminate]]).
    match goal with
    | |- context [plot_loop _ _ _ _ _ _ _ ?c rest ?v2 ?st2] =>
        destruct (IH c v2 st2) as (later & r & k & Hrun & Hk & Hall);
          rewrite Hrun
    end.
    cbn [self fs trace]. rewrite <- app_assoc.
    eexists. eexists. exists (S k). split; [reflexivity|].
    rewrite drawn_app, Hone. cbn [app firstn]. split.
    + rewrite Hk. reflexivity.
    + intros v' Hr. rewrite (Hall v' Hr). reflexivity.
Qed.

(** X5: [plot_all] changes nothing but the plot: whether it returns or
    raises, the collection and the filesystem are as before and the trace
    is the former trace followed by the calls made. *)
Theorem plot_all_changes_only_the_plot
    (plotmode mode : string) (title0 : title_val)
    (z : option pyfloat) (showz0 : bool) (linetype : string)
    (smo : option pyfloat) (verbose : bool) (kw : kwargs) (st : state) :
  self (fst (plot_all mark_lines_raises plotmode mode title0 z showz0
                      linetype smo verbose kw st)) = self st
  /\ fs (fst (plot_all mark_lines_raises plotmode mode title0 z showz0
                       linetype smo verbose kw st)) = fs st
  /\ exists later,
      trace (fst (plot_all mark_lines_raises plotmode mode title0 z showz0
                           linetype smo verbose kw st))
      = trace st ++ later.
Proof.
  destruct (plot_loop_extends mark_lines_raises mode z linetype smo verbose kw
              (self st) 0 (mkVars 0 wmin_start wmax_start title0 showz0) st)
    as (later & r & Hloop).
  rewrite (plot_all_after_loop plotmode mode title0 z showz0 linetype smo
             verbose kw st _ r Hloop).
  destruct r as [v|e]; cbn [fst self fs trace].
  - split; [reflexivity|split; [reflexivity|]].
    exists (later ++ [Xlim (wmin v) (wmax v)]). rewrite app_assoc.
    reflexivity.
  - split; [reflexivity|split; [reflexivity|exists later; reflexivity]].
Qed.

(** X6: [plt.xlim] is called exactly when [plot_all] returns, once and as
    its last call; when [plot_all] raises, the axis limits are never
    set. *)
Theorem xlim_called_last_iff_returns
    (plotmode mode : string) (title0 : title_val)
    (z : option pyfloat) (showz0 : bool) (linetype : string)
    (smo : option pyfloat) (verbose : bool) (kw : kwargs) (st : state) :
  exists later,
    trace (fst (plot_all mark_lines_raises plotmode mode title0 z showz0
                         linetype smo verbose kw st))
    = trace st ++ later
    /\ match snd (plot_all mark_lines_raises plotmode mode title0 z showz0
                           linetype smo verbose kw st) with
       | Returned _ =>
           exists events lo hi,
             later = events ++ [Xlim lo hi]
             /\ forallb (fun e => negb (is_xlim e)) events = true
       | Raised _ => forallb (fun e => negb (is_xlim e)) later = true
       end.
Proof.
  destruct (plot_loop_events (fun e => negb (is_xlim e))
              (fun _ => True) mode z linetype smo verbose kw)
    with (orders := self st) (count := 0)
         (v := mkVars 0 wmin_start wmax_start title0 showz0) (st := st)
    as (later & r & Hloop & Hno).
  - intros; exact I.
  - intros count spec t _. split.
    + unfold plot_call. destruct smo; reflexivity.
    + apply marking_events. reflexivity.
  - exact I.
  - rewrite (plot_all_after_loop plotmode mode title0 z showz0 linetype smo
               verbose kw st _ r Hloop).
    destruct r as [v|e]; cbn [fst snd self fs trace].
    + exists (later ++ [Xlim (wmin v) (wmax v)]). rewrite app_assoc.
      split; [reflexivity|]. exists later, (wmin v), (wmax v).
      split; [reflexivity|exact Hno].
    + exists later. split; [reflexivity|exact Hno].
Qed.

(** X7: the orders are drawn one by one in collection order, each at most
    once: what [plot_all] has drawn is an initial part of the collection,
    and the whole collection when it returns. *)
Theorem orders_drawn_once_in_order
    (plotmode mode : string) (title0 : title_val)
    (z : option pyfloat) (showz0 : bool) (linetype : string)
    (smo : option pyfloat) (verbose : bool) (kw : kwargs) (st : state) :
  exists later k,
    trace (fst (plot_all mark_lines_raises plotmode mode title0 z showz0
                         linetype smo verbose kw st))
    = trace st ++ later
    /\ drawn later = firstn k (self st)
    /\ (snd (plot_all mark_lines_raises plotmode mode title0 z showz0
                      linetype smo verbose kw st) = Returned tt ->
        drawn later = self st).
Proof.
  destruct (plot_loop_drawn mode z linetype smo verbose kw (self st) 0
              (mkVars 0 wmin_start wmax_start title0 showz0) st)
    as (later & r & k & Hloop & Hk & Hall).
  rewrite (plot_all_after_loop plotmode mode title0 z showz0 linetype smo
             verbose kw st _ r Hloop).
  destruct r as [v|e]; cbn [fst snd self fs trace].
  - exists (later ++ [Xlim (wmin v) (wmax v)]), k. rewrite app_assoc.
    split; [reflexivity|]. rewrite drawn_app. cbn [drawn drawn_order].
    rewrite app_nil_r. split; [exact Hk|]. intros _. apply (Hall v eq_refl).
  - exists later, k. split; [reflexivity|split; [exact Hk|discriminate]].
Qed.

(** On an empty collection [plot_all] draws nothing and still sets the
    axis limits, to the starting values 1e12 and 0: the lower limit is
    above the upper one. *)
Theorem plot_all_on_empty_collection
    (plotmode mode : string) (title0 : title_val)
    (z : option pyfloat) (showz0 : bool) (linetype : string)
    (smo : option pyfloat) (verbose : bool) (kw : kwargs)
    (fs0 : filesystem) (tr : list event) :
  plot_all mark_lines_raises plotmode mode title0 z showz0 linetype smo
           verbose kw (mkState [] fs0 tr)
  = (mkState [] fs0 (tr ++ [Xlim wmin_start wmax_start]), Returned tt)
  /\ (wmax_start < wmin_start)%Q.
Proof. split; reflexivity. Qed.


(** A property that all the loop's calls and [plt.xlim] have holds of
    every call of [plot_all]. *)
Lemma plot_all_events (P : event -> bool)
    (plotmode mode : string) (title0 : title_val)
    (z : option pyfloat) (showz0 : bool) (linetype : string)
    (smo : option pyfloat) (verbose : bool) (kw : kwargs) (st : state) :
  (forall lo hi, P (Xlim lo hi) = true) ->
  (forall count spec t,
      P (plot_call smo spec mode (fst (set_labels count spec t)) verbose kw)
      = true
      /\ forallb P (fst (marking_outcome mark_lines_raises z linetype smo spec
                                         (snd (set_labels count spec t))))
         = true) ->
  exists later,
    trace (fst (plot_all mark_lines_raises plotmode mode title0 z showz0
                         linetype smo verbose kw st))
    = trace st ++ later
    /\ forallb P later = true.
Proof.
  intros Hxlim Hturn.
  destruct (plot_loop_events P (fun _ => True) mode z linetype smo verbose kw)
    with (orders := self st) (count := 0)
         (v := mkVars 0 wmin_start wmax_start title0 showz0) (st := st)
    as (later & r & Hloop & Hlater).
  - intros; exact I.
  - intros count spec t _. apply Hturn.
  - exact I.
  - rewrite (plot_all_after_loop plotmode mode title0 z showz0 linetype smo
               verbose kw st _ r Hloop).
    destruct r as [v|e]; cbn [fst self fs trace].
    + exists (later ++ [Xlim (wmin v) (wmax v)]). rewrite app_assoc.
      split; [reflexivity|]. rewrite forallb_app, Hlater. cbn [forallb].
      rewrite Hxlim. reflexivity.
    + exists later. split; [reflexivity|exact Hlater].
Qed.

(** Without a redshift the loop does not depend on [mark_lines]. *)
Lemma plot_loop_without_redshift
    (other : Spec1d -> string -> option exc)
    (mode linetype : string) (smo : option pyfloat) (verbose : bool)
    (kw : kwargs) (orders : list Spec1d) :
  forall (count : nat) (v : loop_vars) (st : state),
    plot_loop mark_lines_raises mode None linetype smo verbose kw count
              orders v st
    = plot_loop other mode None linetype smo verbose kw count orders v st.
Proof.
  induction orders as [|spec rest IH]; intros count v st; [reflexivity|].
  cbn [plot_loop]. unfold bind. rewrite !plot_body_eq.
  cbn [marking_outcome fst snd].
  destruct (col_min (wav spec)); [destruct (col_max (wav spec))|];
    try reflexivity.
  apply IH.
Qed.

(** X9: without a redshift [mark_lines] is never called: the trace of
    [plot_all] holds no such call, and its whole run is the same whatever
    [mark_lines] would do. *)
Theorem no_redshift_no_marking
    (other : Spec1d -> string -> option exc)
    (plotmode mode : string) (title0 : title_val) (showz0 : bool)
    (linetype : string) (smo : option pyfloat) (verbose : bool) (kw : kwargs)
    (st : state) :
  plot_all mark_lines_raises plotmode mode title0 None showz0 linetype smo
           verbose kw st
  = plot_all other plotmode mode title0 None showz0 linetype smo verbose kw st
  /\ exists later,
      trace (fst (plot_all mark_lines_raises plotmode mode title0 None showz0
                           linetype smo verbose kw st))
      = trace st ++ later
      /\ forallb (fun e => negb (is_mark_lines e)) later = true.
Proof.
  split.
  - unfold plot_all, bind, get_self.
    rewrite (plot_loop_without_redshift other). reflexivity.
  - apply plot_all_events; [reflexivity|].
    intros count spec t. split; [|reflexivity].
    unfold plot_call. destruct smo; reflexivity.
Qed.

(** X10: the smoothing width selects the calls: with one, every order is
    drawn by [spec.smooth], never by [spec.plot], and every [mark_lines]
    call has [usesmooth] true; without one, every order is drawn by
    [spec.plot] and every [mark_lines] call has [usesmooth] false. *)
Theorem smoothing_selects_the_calls
    (plotmode mode : string) (title0 : title_val)
    (z : option pyfloat) (showz0 : bool) (linetype : string)
    (verbose : bool) (kw : kwargs) (st : state) :
  (forall width,
      exists later,
        trace (fst (plot_all mark_lines_raises plotmode mode title0 z showz0
                             linetype (Some width) verbose kw st))
        = trace st ++ later
        /\ forallb smoothed_call later = true)
  /\ (exists later,
        trace (fst (plot_all mark_lines_raises plotmode mode title0 z showz0
                             linetype None verbose kw st))
        = trace st ++ later
        /\ forallb raw_call later = true).
Proof.
  split; [intros width|]; apply plot_all_events; try reflexivity;
    intros count spec t; (split; [reflexivity|]);
    apply marking_events; reflexivity.
Qed.

(** X11: the caller's [showz] and [plotmode] have no effect: [showz] is
    assigned in every turn before it is used and [plotmode] is never
    read. *)
Theorem showz_and_plotmode_are_ignored
    (plotmode plotmode' mode : string) (title0 : title_val)
    (z : option pyfloat) (showz0 showz0' : bool) (linetype : string)
    (smo : option pyfloat) (verbose : bool) (kw : kwargs) (st : state) :
  plot_all mark_lines_raises plotmode mode title0 z showz0 linetype smo
           verbose kw st
  = plot_all mark_lines_raises plotmode' mode title0 z showz0' linetype smo
             verbose kw st.
Proof.
  unfold plot_all, bind at 1 3, get_self.
  destruct (self st) as [|spec rest]; [reflexivity|].
  unfold bind. cbn [plot_loop]. unfold bind. rewrite !plot_body_eq.
  reflexivity.
Qed.

(** X12: when the first order does not have exactly one sample, no title
    is ever shown: every drawing call of [plot_all] carries the title
    [False], whatever title the caller gave and however many samples the
    later orders have. *)
Theorem no_title_unless_first_order_has_one_sample
    (plotmode mode : string) (title0 : title_val)
    (z : option pyfloat) (showz0 : bool) (linetype : string)
    (smo : option pyfloat) (verbose : bool) (kw : kwargs)
    (first : Spec1d) (rest : list Spec1d)
    (fs0 : filesystem) (tr : list event) :
  len_spec first <> 1 ->
  exists later,
    trace (fst (plot_all mark_lines_raises plotmode mode title0 z showz0
                         linetype smo verbose kw
                         (mkState (first :: rest) fs0 tr)))
    = tr ++ later
    /\ forallb without_title later = true.
Proof.
  intros Hlen.
  assert (Hfail : set_labels 0 first title0 = (TitleFalse, false)).
  { unfold set_labels.
    destruct (Z.eqb_spec (Z.of_nat 0) (Z.of_nat (len_spec first) - 1));
      [lia|reflexivity]. }
  assert (Hturn : forall s,
            forallb without_title
              (plot_call smo first mode TitleFalse verbose kw
               :: fst (marking_outcome mark_lines_raises z linetype smo first
                         s)) = true).
  { intros s. cbn [forallb]. rewrite marking_events by reflexivity.
    unfold plot_call. destruct smo; reflexivity. }
  set (st := mkState (first :: rest) fs0 tr).
  set (v0 := mkVars 0 wmin_start wmax_start title0 showz0).
  assert (Hloop : exists later r,
    plot_loop mark_lines_raises mode z linetype smo verbose kw 0 (self st)
              v0 st
    = (mkState (first :: rest) fs0 (tr ++ later), r)
    /\ forallb without_title later = true).
  { cbn [self st plot_loop]. unfold bind at 1. rewrite plot_body_eq.
    cbn [title v0]. rewrite Hfail. cbn [fst snd self fs trace].
    destruct (snd (marking_outcome _ _ _ _ _ _)) as [e|].
    { eexists. eexists. split; [reflexivity|apply Hturn]. }
    destruct (col_min (wav first)) as [lo|];
      [destruct (col_max (wav first)) as [hi|]|];
      try (eexists; eexists; split; [reflexivity|apply Hturn]).
    match goal with
    | |- context [plot_loop _ _ _ _ _ _ _ ?c rest ?v2 ?st2] =>
        destruct (plot_loop_events without_title (fun t => t = TitleFalse)
                    mode z linetype smo verbose kw)
          with (orders := rest) (count := c) (v := v2) (st := st2)
          as (later & r & Hrun & Hlater)
    end.
    - intros count spec t ->. unfold set_labels.
      destruct (Z.of_nat count =? Z.of_nat (len_spec spec) - 1)%Z;
        reflexivity.
    - intros count spec t ->. split.
      + unfold set_labels, plot_call.
        destruct (Z.of_nat count =? Z.of_nat (len_spec spec) - 1)%Z;
          destruct smo; reflexivity.
      + apply marking_events. reflexivity.
    - reflexivity.
    - rewrite Hrun. cbn [self fs trace]. rewrite <- app_assoc.
      eexists. eexists. split; [reflexivity|].
      rewrite forallb_app, Hlater, andb_true_r. apply Hturn. }
  destruct Hloop as (later & r & Hloop & Hlater).
  rewrite (plot_all_after_loop plotmode mode title0 z showz0 linetype smo
             verbose kw st _ r Hloop).
  destruct r as [v|e]; cbn [fst self fs trace].
  - exists (later ++ [Xlim (wmin v) (wmax v)]). rewrite app_assoc.
    split; [reflexivity|]. rewrite forallb_app, Hlater. reflexivity.
  - exists later. split; [reflexivity|exact Hlater].
Qed.

End PlottingMore.


Lemma no_title_unless_first_order_has_one_sample_witness :
  exists later,
    trace (fst (plot_all never_raises "single" "input" (TitleStr "HD 1234")
                         None true "strongem" None false []
                         (mkState (order_a :: [order_b]) ∅ [])))
    = [] ++ later
    /\ forallb without_title later = true.
Proof.
  apply (no_title_unless_first_order_has_one_sample never_raises "single"
           "input" (TitleStr "HD 1234") None true "strongem" None false []
           order_a [order_b] ∅ []).
  cbn. lia.
Defined.

(** * Further properties of the exporter *)

Lemma string_length_append (a b : string) :
  String.length (a +:+ b) = String.length a + String.length b.
Proof.
  induction a as [|c a IH]; [reflexivity|].
  change (S (String.length (a +:+ b)) = S (String.length a + String.length b)).
  f_equal. exact IH.
Qed.

(** X13: [save_multi] never writes at the path [outroot] itself: the
    suffix '.fits' is always added, also when [outroot] already ends in
    it, so whatever is stored at [outroot] stays as it was, in every
    output format. *)
Theorem save_multi_never_writes_at_outroot
    (stored : pyfloat -> pyfloat) (outroot outformat : string) (st : state) :
  fs (fst (save_multi stored outroot outformat st)) !! outroot
  = fs st !! outroot.
Proof.
  unfold save_multi. destruct (String.eqb outformat "multitab").
  - unfold bind, get_self, writeto. cbn [self fs trace app].
    assert (Hne : outroot +:+ ".fits" <> outroot).
    { intros Heq. apply (f_equal String.length) in Heq.
      rewrite string_length_append in Heq. cbn in Heq. lia. }
    destruct (fs st !! (outroot +:+ ".fits")); cbn [fst fs];
      apply lookup_insert_ne; exact Hne.
  - reflexivity.
Qed.

Lemma orders_drawn_once_in_order_witness :
  exists later k,
    trace (fst (plot_all knows_only_strongem "single" "input" TitleNone
                         (Some (1 # 2)) true "em" None false []
                         (mkState [order_a; order_b] ∅ [])))
    = [] ++ later
    /\ drawn later = firstn k [order_a; order_b]
    /\ (snd (plot_all knows_only_strongem "single" "input" TitleNone
                      (Some (1 # 2)) true "em" None false []
                      (mkState [order_a; order_b] ∅ [])) = Returned tt ->
        drawn later = [order_a; order_b]).
Proof.
  apply (orders_drawn_once_in_order knows_only_strongem "single" "input"
           TitleNone (Some (1 # 2)) true "em" None false []
           (mkState [order_a; order_b] ∅ [])).
Defined.
